(** * Aspia host: credential record and session supervisor

    A shallow embedding of [host/user.cc] (the credential record) and of
    [host/win/host.cc] (the per-connection session supervisor), with the
    properties of the specification stated and proved over it. *)

From Stdlib Require Import ZArith List String Bool Lia.
From Stdlib Require Import Strings.Byte.
Import ListNotations.

Local Open Scope Z_scope.

(** ** Data shared by both parts *)

(** A [QChar] is one UTF-16 code unit. *)
Definition QChar := Z.

(** A [QString] is a sequence of [QChar]. *)
Definition QString := list QChar.

(** [std::string] and [QByteArray] hold raw bytes. *)
Definition std_string := list byte.
Definition QByteArray := list byte.

(** * Part 1: [host/user.cc] *)

(** The constants of [host/user.h], which [user.cc] only names. *)
Class UserLimits := {
  kMaxUserNameLength : Z;
  kMinPasswordLength : Z;
  kMaxPasswordLength : Z;
  kPasswordHashLength : Z
}.

(** The Qt text functions [user.cc] calls: [QChar::isLetter],
    [QChar::isDigit] and [QString::toStdString] (the UTF-8 encoding). *)
Class QtText := {
  isLetter : QChar -> bool;
  isDigit : QChar -> bool;
  toStdString : QString -> std_string
}.

(** [Sha512::hash] of [crypto/sha.h]. *)
Class Sha512 := {
  Sha512_hash : std_string -> std_string
}.

Module User.

Section Definitions.
Context {limits : UserLimits} {qt : QtText} {sha : Sha512}.

(** The members of [class User]. *)
Record t := mk {
  name_ : QString;
  password_hash_ : std_string;
  flags_ : Z;
  sessions_ : Z
}.

Definition char_dot : QChar := 46.
Definition char_underscore : QChar := 95.
Definition char_minus : QChar := 45.

Definition isValidUserNameChar (username_char : QChar) : bool :=
  if isLetter username_char then true
  else if isDigit username_char then true
  else if (username_char =? char_dot) || (username_char =? char_underscore)
          || (username_char =? char_minus)
  then true
  else false.

Definition isValidPasswordHash (password_hash : std_string) : bool :=
  if negb (Z.of_nat (List.length password_hash) =? kPasswordHashLength) then false
  else true.

Definition kIterCount : Z := 100000.

(** The body of the [for] loop of [createPasswordHash], run for the
    iterations that remain.  [calls] counts the invocations of
    [Sha512::hash] made so far. *)
Fixpoint createPasswordHash_loop (remaining : nat) (data : std_string) (calls : nat)
  : std_string * nat :=
  match remaining with
  | O => (data, calls)
  | S remaining' =>
      createPasswordHash_loop remaining' (Sha512_hash data) (S calls)
  end.

Definition createPasswordHash (password : std_string) (calls : nat)
  : std_string * nat :=
  createPasswordHash_loop (Z.to_nat (kIterCount - 0)) password calls.

(** The scan of [isValidName] over the characters of the name. *)
Fixpoint all_valid_chars (value : QString) : bool :=
  match value with
  | [] => true
  | c :: rest => if negb (isValidUserNameChar c) then false else all_valid_chars rest
  end.

Definition isValidName (value : QString) : bool :=
  let length := Z.of_nat (List.length value) in
  if (length <=? 0) || (length >? kMaxUserNameLength) then false
  else all_valid_chars value.

Definition isValidPassword (value : QString) : bool :=
  let length := Z.of_nat (List.length value) in
  if (length <? kMinPasswordLength) || (length >? kMaxPasswordLength) then false
  else true.

Definition setName (value : QString) (u : t) : bool * t :=
  if negb (isValidName value) then (false, u)
  else (true, mk value (password_hash_ u) (flags_ u) (sessions_ u)).

(** [setPassword] also threads the count of [Sha512::hash] invocations. *)
Definition setPassword (value : QString) (u : t) (calls : nat) : bool * t * nat :=
  if negb (isValidPassword value) then (false, u, calls)
  else
    let '(digest, calls') := createPasswordHash (toStdString value) calls in
    (true, mk (name_ u) digest (flags_ u) (sessions_ u), calls').

Definition setPasswordHash (value : std_string) (u : t) : bool * t :=
  if negb (isValidPasswordHash value) then (false, u)
  else (true, mk (name_ u) value (flags_ u) (sessions_ u)).

Definition setFlags (value : Z) (u : t) : t :=
  mk (name_ u) (password_hash_ u) value (sessions_ u).

Definition setSessions (value : Z) (u : t) : t :=
  mk (name_ u) (password_hash_ u) (flags_ u) value.

(** The character set of a user name, in the words of the specification:
    letters, digits, and the three punctuation marks. *)
Definition allowed_char (c : QChar) : Prop :=
  isLetter c = true \/ isDigit c = true \/ c = 46 \/ c = 95 \/ c = 45.

(** The calls a holder of a credential record can make on it. *)
Inductive Call :=
| call_setName (value : QString)
| call_setPassword (value : QString)
| call_setPasswordHash (value : std_string)
| call_setFlags (value : Z)
| call_setSessions (value : Z).

(** The record after one call, whatever the call returned. *)
Definition after_call (u : t) (c : Call) : t :=
  match c with
  | call_setName value => snd (setName value u)
  | call_setPassword value => snd (fst (setPassword value u 0))
  | call_setPasswordHash value => snd (setPasswordHash value u)
  | call_setFlags value => setFlags value u
  | call_setSessions value => setSessions value u
  end.

Definition after_calls (u : t) (calls : list Call) : t :=
  fold_left after_call calls u.

(** A record holds no name or a valid one, and no digest or one of the
    digest length. *)
Definition well_formed (u : t) : Prop :=
  (name_ u = [] \/ isValidName (name_ u) = true)
  /\ (password_hash_ u = [] \/ isValidPasswordHash (password_hash_ u) = true).

End Definitions.

(** Sample instances, used to run the definitions on concrete inputs. *)
Definition sample_limits : UserLimits :=
  {| kMaxUserNameLength := 64; kMinPasswordLength := 8;
     kMaxPasswordLength := 64; kPasswordHashLength := 64 |}.

Definition ascii_isLetter (c : QChar) : bool :=
  ((65 <=? c) && (c <=? 90)) || ((97 <=? c) && (c <=? 122)).

Definition ascii_isDigit (c : QChar) : bool := (48 <=? c) && (c <=? 57).

Definition ascii_toStdString (s : QString) : std_string :=
  map (fun c => match Byte.of_N (Z.to_N (c mod 128)) with
                | Some b => b
                | None => x00
                end) s.

Definition sample_text : QtText :=
  {| isLetter := ascii_isLetter; isDigit := ascii_isDigit;
     toStdString := ascii_toStdString |}.

(** A stand-in for the hash that rotates the bytes; enough to tell the
    iterations apart. *)
Definition rotate_hash (data : std_string) : std_string :=
  match data with
  | [] => []
  | b :: rest => rest ++ [b]
  end.

Definition sample_sha : Sha512 := {| Sha512_hash := rotate_hash |}.

Definition sample_user : t := mk [97; 108; 105; 99; 101] [x01; x02] 3 1.

(** A stand-in for the hash with a digest of 64 bytes. *)
Definition padded_hash (data : std_string) : std_string :=
  firstn 64 (rotate_hash data ++ repeat x00 64).

Definition padded_sha : Sha512 := {| Sha512_hash := padded_hash |}.

(** A record as default-constructed. *)
Definition empty_user : t := mk [] [] 0 0.

End User.

(** * Part 2: [host/win/host.cc] *)

Module Host.

Local Open Scope string_scope.

(** ** Data model *)

(** [proto::auth::SessionType]: the three kinds the supervisor knows, and
    any other value the protocol enum can carry. *)
Inductive SessionType :=
| SESSION_TYPE_DESKTOP_MANAGE
| SESSION_TYPE_DESKTOP_VIEW
| SESSION_TYPE_FILE_TRANSFER
| SESSION_TYPE_other (value : Z).

(** [Host::State], declared in [host/win/host.h]: the four values that
    [host.cc] names. *)
Inductive State := StoppedState | StartingState | DetachedState | AttachedState.

(** [HostProcess::Account]. *)
Inductive Account := Account_System | Account_User.

(** The console notifications of the Windows session API. *)
Definition WTS_CONSOLE_CONNECT : Z := 1.
Definition WTS_CONSOLE_DISCONNECT : Z := 2.

(** Objects live in a heap and are named by handles; a [QPointer] is an
    optional handle that reads as null once its object is destroyed. *)
Definition handle := nat.
Definition QPointer := option handle.

(** The data members of [Host]. *)
Record Members := mkMembers {
  session_type_ : SessionType;
  session_id_ : Z;
  attach_timer_id_ : Z;
  state_ : State;
  network_channel_ : QPointer;
  ipc_channel_ : QPointer;
  session_process_ : QPointer
}.

(** Modelled from the spec: the class [HostProcess] is not among the
    sources.  A process object keeps what it is told before [start()]
    (console session, program, arguments, account) and whether it has
    been started. *)
Record HostProcess := mkHostProcess {
  proc_session_id : option Z;
  proc_program : option string;
  proc_arguments : list string;
  proc_account : option Account;
  proc_started : bool
}.

(** Modelled from the spec: the classes [NetworkChannel] and [IpcChannel]
    are not among the sources.  An endpoint reads one message per request
    and writes one message per call, each with a completion notification;
    it holds the reads asked for that have not yet delivered a message,
    and the writes issued whose completion has not yet been notified,
    oldest first. *)
Record Endpoint := mkEndpoint {
  read_requests : nat;
  unacked : list (Z * QByteArray)
}.

Inductive Obj :=
| ONetworkChannel (e : Endpoint)
| OIpcServer (listening : bool)
| OHostProcess (p : HostProcess)
| OIpcChannel (e : Endpoint).

Inductive Signal :=
| sig_disconnected | sig_messageWritten | sig_messageReceived
| sig_started | sig_finished | sig_newConnection | sig_errorOccurred.

Inductive Slot :=
| slot_stop | slot_dettachSession
| slot_networkMessageWritten | slot_networkMessageReceived
| slot_ipcMessageWritten | slot_ipcMessageReceived
| slot_ipcServerStarted | slot_ipcNewConnection
| slot_deleteLater.

(** One [connect(sender, signal, receiver, slot)]; the receiver is the
    supervisor, except for [slot_deleteLater] where it is the sender. *)
Record Connection := mkConnection {
  conn_sender : handle;
  conn_signal : Signal;
  conn_slot : Slot
}.

(** The calls the supervisor makes on its collaborators, in order. *)
Inductive Effect :=
| Warning (msg : string)
| StartTimer (result : Z)
| KillTimer (id : Z)
| Finished
| ProcessStart (p : handle) (config : HostProcess)
| ProcessKill (p : handle)
| ServerStart (s : handle)
| IpcRead (c : handle)
| IpcWrite (c : handle) (message_id : Z) (buffer : QByteArray)
| NetRead (n : handle)
| NetWrite (n : handle) (message_id : Z) (buffer : QByteArray).

(** What the platform answers: whether [Q_ASSERT] is compiled out
    ([QT_NO_DEBUG]), [WTSGetActiveConsoleSessionId()] and
    [QCoreApplication::applicationDirPath()]. *)
Record Platform := mkPlatform {
  qt_no_debug : bool;
  active_console_session : Z;
  application_dir : string
}.

(** The timers of the supervisor's [QObject]: the identifiers running,
    the next fresh identifier, and whether the coming [startTimer] calls
    succeed (past the end of the list they do). *)
Record Timers := mkTimers {
  running : list Z;
  next_timer_id : Z;
  outcomes : list bool
}.

Record Heap := mkHeap {
  objects : list (handle * Obj);
  next_handle : handle;
  connections : list Connection
}.

Record World := mkWorld {
  me : Members;
  platform : Platform;
  timers : Timers;
  heap : Heap;
  trace : list Effect
}.

(** ** Equality tests *)

Definition State_eqb (a b : State) : bool :=
  match a, b with
  | StoppedState, StoppedState | StartingState, StartingState
  | DetachedState, DetachedState | AttachedState, AttachedState => true
  | _, _ => false
  end.

Definition is_file_transfer (t : SessionType) : bool :=
  match t with SESSION_TYPE_FILE_TRANSFER => true | _ => false end.

Definition Signal_eqb (a b : Signal) : bool :=
  match a, b with
  | sig_disconnected, sig_disconnected | sig_messageWritten, sig_messageWritten
  | sig_messageReceived, sig_messageReceived | sig_started, sig_started
  | sig_finished, sig_finished | sig_newConnection, sig_newConnection
  | sig_errorOccurred, sig_errorOccurred => true
  | _, _ => false
  end.

Definition Slot_eqb (a b : Slot) : bool :=
  match a, b with
  | slot_stop, slot_stop | slot_dettachSession, slot_dettachSession
  | slot_networkMessageWritten, slot_networkMessageWritten
  | slot_networkMessageReceived, slot_networkMessageReceived
  | slot_ipcMessageWritten, slot_ipcMessageWritten
  | slot_ipcMessageReceived, slot_ipcMessageReceived
  | slot_ipcServerStarted, slot_ipcServerStarted
  | slot_ipcNewConnection, slot_ipcNewConnection
  | slot_deleteLater, slot_deleteLater => true
  | _, _ => false
  end.

Definition isNull (p : QPointer) : bool :=
  match p with None => true | Some _ => false end.

(** ** Updates of the members *)

Definition set_state_ (v : State) (m : Members) : Members :=
  mkMembers (session_type_ m) (session_id_ m) (attach_timer_id_ m) v
            (network_channel_ m) (ipc_channel_ m) (session_process_ m).

Definition set_session_id_ (v : Z) (m : Members) : Members :=
  mkMembers (session_type_ m) v (attach_timer_id_ m) (state_ m)
            (network_channel_ m) (ipc_channel_ m) (session_process_ m).

Definition set_attach_timer_id_ (v : Z) (m : Members) : Members :=
  mkMembers (session_type_ m) (session_id_ m) v (state_ m)
            (network_channel_ m) (ipc_channel_ m) (session_process_ m).

Definition set_network_channel_ (v : QPointer) (m : Members) : Members :=
  mkMembers (session_type_ m) (session_id_ m) (attach_timer_id_ m) (state_ m)
            v (ipc_channel_ m) (session_process_ m).

Definition set_ipc_channel_ (v : QPointer) (m : Members) : Members :=
  mkMembers (session_type_ m) (session_id_ m) (attach_timer_id_ m) (state_ m)
            (network_channel_ m) v (session_process_ m).

Definition set_session_process_ (v : QPointer) (m : Members) : Members :=
  mkMembers (session_type_ m) (session_id_ m) (attach_timer_id_ m) (state_ m)
            (network_channel_ m) (ipc_channel_ m) v.

(** A [QPointer] to a destroyed object reads as null. *)
Definition clear_pointer (h : handle) (p : QPointer) : QPointer :=
  match p with
  | Some h' => if Nat.eqb h' h then None else p
  | None => None
  end.

Definition clear_pointers (h : handle) (m : Members) : Members :=
  mkMembers (session_type_ m) (session_id_ m) (attach_timer_id_ m) (state_ m)
            (clear_pointer h (network_channel_ m))
            (clear_pointer h (ipc_channel_ m))
            (clear_pointer h (session_process_ m)).

(** ** The heap *)

Fixpoint lookup (h : handle) (objs : list (handle * Obj)) : option Obj :=
  match objs with
  | [] => None
  | (k, o) :: rest => if Nat.eqb k h then Some o else lookup h rest
  end.

Fixpoint update (h : handle) (f : Obj -> Obj) (objs : list (handle * Obj))
  : list (handle * Obj) :=
  match objs with
  | [] => []
  | (k, o) :: rest =>
      if Nat.eqb k h then (k, f o) :: rest else (k, o) :: update h f rest
  end.

Fixpoint remove (h : handle) (objs : list (handle * Obj)) : list (handle * Obj) :=
  match objs with
  | [] => []
  | (k, o) :: rest =>
      if Nat.eqb k h then remove h rest else (k, o) :: remove h rest
  end.

Definition on_endpoint (f : Endpoint -> Endpoint) (o : Obj) : Obj :=
  match o with
  | ONetworkChannel e => ONetworkChannel (f e)
  | OIpcChannel e => OIpcChannel (f e)
  | _ => o
  end.

Definition on_process (f : HostProcess -> HostProcess) (o : Obj) : Obj :=
  match o with
  | OHostProcess p => OHostProcess (f p)
  | _ => o
  end.

Definition add_read (e : Endpoint) : Endpoint :=
  mkEndpoint (S (read_requests e)) (unacked e).

Definition add_write (message_id : Z) (buffer : QByteArray) (e : Endpoint) : Endpoint :=
  mkEndpoint (read_requests e) (unacked e ++ [(message_id, buffer)]).

Definition new_process : HostProcess := mkHostProcess None None [] None false.

Definition new_endpoint : Endpoint := mkEndpoint 0 [].

(** ** The monad of the supervisor's code

    A slot runs on the world and either returns, or ends the whole process
    ([qFatal], a failed [Q_ASSERT], a null dereference), or exceeds the
    nesting depth it was given. *)
Inductive Result (A : Type) :=
| Ok (a : A) (w : World)
| Fatal (msg : string) (w : World)
| OutOfFuel.
Arguments Ok {A} a w.
Arguments Fatal {A} msg w.
Arguments OutOfFuel {A}.

Definition M (A : Type) := World -> Result A.

Definition ret {A} (a : A) : M A := fun w => Ok a w.

Definition bind {A B} (m : M A) (f : A -> M B) : M B :=
  fun w =>
    match m w with
    | Ok a w' => f a w'
    | Fatal msg w' => Fatal msg w'
    | OutOfFuel => OutOfFuel
    end.

Notation "x <- c1 ;; c2" := (bind c1 (fun x => c2))
  (at level 61, c1 at next level, right associativity).
Notation "c1 ;; c2" := (bind c1 (fun _ => c2))
  (at level 61, right associativity).

Definition fatal {A} (msg : string) : M A := fun w => Fatal msg w.

Definition out_of_fuel {A} : M A := fun _ => OutOfFuel.

Definition gets {A} (f : Members -> A) : M A := fun w => Ok (f (me w)) w.

Definition modify (f : Members -> Members) : M unit :=
  fun w => Ok tt (mkWorld (f (me w)) (platform w) (timers w) (heap w) (trace w)).

Definition log (e : Effect) : M unit :=
  fun w => Ok tt (mkWorld (me w) (platform w) (timers w) (heap w) (trace w ++ [e])).

Definition modify_heap (f : Heap -> Heap) : M unit :=
  fun w => Ok tt (mkWorld (me w) (platform w) (timers w) (f (heap w)) (trace w)).

Definition when (c : bool) (m : M unit) : M unit := if c then m else ret tt.

(** ** What the supervisor calls: Qt, the platform and its collaborators *)

(** [Q_ASSERT(test)]: compiled out under [QT_NO_DEBUG], otherwise a failed
    test ends the process. *)
Definition Q_ASSERT (test : bool) : M unit :=
  fun w =>
    if qt_no_debug (platform w) then Ok tt w
    else if test then Ok tt w
    else Fatal "ASSERT failure" w.

Definition qWarning (msg : string) : M unit := log (Warning msg).

Definition qFatal {A} (msg : string) : M A := fatal msg.

(** [QObject::startTimer]: a fresh non-zero identifier, or zero when the
    timer could not be started. *)
Definition startTimer : M Z :=
  fun w =>
    let t := timers w in
    match outcomes t with
    | false :: rest =>
        Ok 0 (mkWorld (me w) (platform w)
                      (mkTimers (running t) (next_timer_id t) rest)
                      (heap w) (trace w ++ [StartTimer 0]))
    | _ =>
        let id := next_timer_id t in
        Ok id (mkWorld (me w) (platform w)
                       (mkTimers (id :: running t) (id + 1) (tl (outcomes t)))
                       (heap w) (trace w ++ [StartTimer id]))
    end.

Definition killTimer (id : Z) : M unit :=
  fun w =>
    let t := timers w in
    Ok tt (mkWorld (me w) (platform w)
                   (mkTimers (filter (fun k => negb (k =? id)%Z) (running t))
                             (next_timer_id t) (outcomes t))
                   (heap w) (trace w ++ [KillTimer id])).

Definition WTSGetActiveConsoleSessionId : M Z :=
  fun w => Ok (active_console_session (platform w)) w.

Definition applicationDirPath : M string :=
  fun w => Ok (application_dir (platform w)) w.

(** [new T(...)]. *)
Definition alloc (o : Obj) : M handle :=
  fun w =>
    let hp := heap w in
    let h := next_handle hp in
    Ok h (mkWorld (me w) (platform w) (timers w)
                  (mkHeap ((h, o) :: objects hp) (S h) (connections hp))
                  (trace w)).

Definition modify_obj (h : handle) (f : Obj -> Obj) : M unit :=
  modify_heap (fun hp => mkHeap (update h f (objects hp)) (next_handle hp)
                                (connections hp)).

(** Destruction of an object: it leaves the heap, its connections go, and
    every [QPointer] to it becomes null. *)
Definition destroy (h : handle) : M unit :=
  modify_heap (fun hp =>
    mkHeap (remove h (objects hp)) (next_handle hp)
           (filter (fun c => negb (Nat.eqb (conn_sender c) h)) (connections hp))) ;;
  modify (clear_pointers h).

(** [connect(sender, signal, receiver, slot)]; Qt warns and connects
    nothing when the sender is null. *)
Definition connect (sender : QPointer) (sig : Signal) (sl : Slot) : M unit :=
  match sender with
  | Some h =>
      modify_heap (fun hp =>
        mkHeap (objects hp) (next_handle hp)
               (connections hp ++ [mkConnection h sig sl]))
  | None => qWarning "QObject::connect: invalid nullptr parameter"
  end.

(** [p->...] on a [QPointer]. *)
Definition deref (p : QPointer) : M handle :=
  match p with
  | Some h => ret h
  | None => fatal "null pointer dereference"
  end.

Definition NetworkChannel_readMessage (n : handle) : M unit :=
  log (NetRead n) ;; modify_obj n (on_endpoint add_read).

Definition NetworkChannel_writeMessage (n : handle) (message_id : Z)
           (buffer : QByteArray) : M unit :=
  log (NetWrite n message_id buffer) ;;
  modify_obj n (on_endpoint (add_write message_id buffer)).

Definition IpcChannel_readMessage (c : handle) : M unit :=
  log (IpcRead c) ;; modify_obj c (on_endpoint add_read).

Definition IpcChannel_writeMessage (c : handle) (message_id : Z)
           (buffer : QByteArray) : M unit :=
  log (IpcWrite c message_id buffer) ;;
  modify_obj c (on_endpoint (add_write message_id buffer)).

Definition HostProcess_setSessionId (p : handle) (v : Z) : M unit :=
  modify_obj p (on_process (fun c =>
    mkHostProcess (Some v) (proc_program c) (proc_arguments c)
                  (proc_account c) (proc_started c))).

Definition HostProcess_setProgram (p : handle) (v : string) : M unit :=
  modify_obj p (on_process (fun c =>
    mkHostProcess (proc_session_id c) (Some v) (proc_arguments c)
                  (proc_account c) (proc_started c))).

Definition HostProcess_setArguments (p : handle) (v : list string) : M unit :=
  modify_obj p (on_process (fun c =>
    mkHostProcess (proc_session_id c) (proc_program c) v
                  (proc_account c) (proc_started c))).

Definition HostProcess_setAccount (p : handle) (v : Account) : M unit :=
  modify_obj p (on_process (fun c =>
    mkHostProcess (proc_session_id c) (proc_program c) (proc_arguments c)
                  (Some v) (proc_started c))).

Definition set_started (b : bool) (c : HostProcess) : HostProcess :=
  mkHostProcess (proc_session_id c) (proc_program c) (proc_arguments c)
                (proc_account c) b.

Definition process_config (p : handle) (w : World) : HostProcess :=
  match lookup p (objects (heap w)) with
  | Some (OHostProcess c) => c
  | _ => new_process
  end.

(** [HostProcess::start()]: the worker is launched with what the object
    was told. *)
Definition HostProcess_start (p : handle) : M unit :=
  (fun w => log (ProcessStart p (process_config p w)) w) ;;
  modify_obj p (on_process (set_started true)).

Definition HostProcess_kill (p : handle) : M unit :=
  log (ProcessKill p) ;; modify_obj p (on_process (set_started false)).

Definition IpcServer_start (s : handle) : M unit := log (ServerStart s).

(** ** The supervisor *)

(** [Host::attachSession]. *)
Definition attachSession (session_id : Z) : M unit :=
  modify (set_state_ StartingState) ;;
  modify (set_session_id_ session_id) ;;
  ipc_server <- alloc (OIpcServer false) ;;
  connect (Some ipc_server) sig_started slot_ipcServerStarted ;;
  connect (Some ipc_server) sig_finished slot_deleteLater ;;
  connect (Some ipc_server) sig_newConnection slot_ipcNewConnection ;;
  connect (Some ipc_server) sig_errorOccurred slot_stop ;;
  IpcServer_start ipc_server.

(** The teardown of [Host::dettachSession], past its guard: the state
    becomes detached, the worker is killed and deleted, the channel is
    deleted. *)
Definition release_session : M unit :=
  modify (set_state_ DetachedState) ;;
  p <- gets session_process_ ;;
  match p with
  | Some h => HostProcess_kill h ;; destroy h
  | None => ret tt
  end ;;
  c <- gets ipc_channel_ ;;
  match c with
  | Some h => destroy h
  | None => ret tt
  end.

(** The end of [Host::stop], once [dettachSession] has returned: the
    state becomes stopped, the timer the supervisor remembers is killed,
    and [finished] is emitted. *)
Definition finish : M unit :=
  modify (set_state_ StoppedState) ;;
  id <- gets attach_timer_id_ ;;
  when (negb (id =? 0)%Z)
       (killTimer id ;; modify (set_attach_timer_id_ 0)) ;;
  log Finished.

(** [Host::stop] and [Host::dettachSession] call each other; [depth]
    bounds the nesting of the calls. *)
Fixpoint stop_at (depth : nat) : M unit :=
  match depth with
  | O => out_of_fuel
  | S d =>
      st <- gets state_ ;;
      if State_eqb st StoppedState then ret tt
      else dettachSession_at d ;; finish
  end
with dettachSession_at (depth : nat) : M unit :=
  match depth with
  | O => out_of_fuel
  | S d =>
      st <- gets state_ ;;
      if State_eqb st StoppedState || State_eqb st DetachedState then ret tt
      else
        release_session ;;
        ty <- gets session_type_ ;;
        if is_file_transfer ty then stop_at d
        else
          id <- startTimer ;;
          modify (set_attach_timer_id_ id) ;;
          if (id =? 0)%Z then qWarning "Could not start the timer" ;; stop_at d
          else ret tt
  end.

(** The calls nest at most four deep: stop, dettachSession, stop,
    dettachSession. *)
Definition max_nesting : nat := 4.

Definition stop : M unit := stop_at max_nesting.

Definition dettachSession : M unit := dettachSession_at max_nesting.

(** [Host::start]. *)
Definition start : M unit :=
  modify (set_state_ StartingState) ;;
  n <- gets network_channel_ ;;
  connect n sig_disconnected slot_stop ;;
  connect n sig_messageWritten slot_networkMessageWritten ;;
  connect n sig_messageReceived slot_networkMessageReceived ;;
  id <- startTimer ;;
  modify (set_attach_timer_id_ id) ;;
  if (id =? 0)%Z then qWarning "Could not start the timer" ;; stop
  else
    session_id <- WTSGetActiveConsoleSessionId ;;
    attachSession session_id.

(** [Host::sessionChanged]. *)
Definition sessionChanged (event session_id : Z) : M unit :=
  st <- gets state_ ;;
  if negb (State_eqb st AttachedState) && negb (State_eqb st DetachedState)
  then ret tt
  else if (event =? WTS_CONSOLE_CONNECT)%Z then attachSession session_id
  else if (event =? WTS_CONSOLE_DISCONNECT)%Z then dettachSession
  else ret tt.

(** [Host::timerEvent]. *)
Definition timerEvent (timerId : Z) : M unit :=
  id <- gets attach_timer_id_ ;;
  if (timerId =? id)%Z then stop else ret tt.

(** [Host::networkMessageWritten]. *)
Definition networkMessageWritten (message_id : Z) : M unit :=
  c <- gets ipc_channel_ ;;
  match c with
  | Some h => IpcChannel_readMessage h
  | None => ret tt
  end.

(** [Host::networkMessageReceived]. *)
Definition networkMessageReceived (buffer : QByteArray) : M unit :=
  c <- gets ipc_channel_ ;;
  match c with
  | Some h => IpcChannel_writeMessage h (-1) buffer
  | None => ret tt
  end.

(** [Host::ipcMessageWritten]. *)
Definition ipcMessageWritten (message_id : Z) : M unit :=
  n <- gets network_channel_ ;;
  match n with
  | Some h => NetworkChannel_readMessage h
  | None => ret tt
  end.

(** [Host::ipcMessageReceived]. *)
Definition ipcMessageReceived (buffer : QByteArray) : M unit :=
  n <- gets network_channel_ ;;
  match n with
  | Some h => NetworkChannel_writeMessage h (-1) buffer
  | None => ret tt
  end.

(** [Host::ipcServerStarted]. *)
Definition ipcServerStarted (channel_id : string) : M unit :=
  st <- gets state_ ;;
  Q_ASSERT (State_eqb st StartingState) ;;
  old <- gets session_process_ ;;
  Q_ASSERT (isNull old) ;;
  p <- alloc (OHostProcess new_process) ;;
  modify (set_session_process_ (Some p)) ;;
  sid <- gets session_id_ ;;
  HostProcess_setSessionId p sid ;;
  dir <- applicationDirPath ;;
  HostProcess_setProgram p (dir ++ "/aspia_host.exe") ;;
  let arguments :=
    ((([] ++ ["--channel_id"]) ++ [channel_id]) ++ ["--session_type"])%list in
  ty <- gets session_type_ ;;
  arguments <-
    match ty with
    | SESSION_TYPE_DESKTOP_MANAGE =>
        HostProcess_setAccount p Account_System ;;
        ret (arguments ++ ["desktop_manage"])%list
    | SESSION_TYPE_DESKTOP_VIEW =>
        HostProcess_setAccount p Account_System ;;
        ret (arguments ++ ["desktop_view"])%list
    | SESSION_TYPE_FILE_TRANSFER =>
        HostProcess_setAccount p Account_User ;;
        ret (arguments ++ ["file_transfer"])%list
    | SESSION_TYPE_other _ => qFatal "Unknown session type"
    end ;;
  HostProcess_setArguments p arguments ;;
  connect (Some p) sig_errorOccurred slot_stop ;;
  connect (Some p) sig_finished slot_dettachSession ;;
  HostProcess_start p.

(** [Host::ipcNewConnection]. *)
Definition ipcNewConnection (channel : QPointer) : M unit :=
  Q_ASSERT (negb (isNull channel)) ;;
  id <- gets attach_timer_id_ ;;
  Q_ASSERT (negb (id =? 0)%Z) ;;
  killTimer id ;;
  modify (set_attach_timer_id_ 0) ;;
  modify (set_ipc_channel_ channel) ;;
  connect channel sig_disconnected slot_dettachSession ;;
  connect channel sig_messageReceived slot_ipcMessageReceived ;;
  connect channel sig_messageWritten slot_ipcMessageWritten ;;
  modify (set_state_ AttachedState) ;;
  c <- gets ipc_channel_ ;;
  c <- deref c ;;
  IpcChannel_readMessage c ;;
  n <- gets network_channel_ ;;
  n <- deref n ;;
  NetworkChannel_readMessage n.

(** [Host::Host].  The initial values of the other members are declared
    in [host/win/host.h]; they are taken as no session, no timer and the
    stopped state, and [start] overwrites each of them before it is
    read. *)
Definition Host_ctor (session_type : SessionType) (network_channel : QPointer)
  : M unit :=
  modify (fun _ => mkMembers session_type 0 0 StoppedState network_channel None None) ;;
  Q_ASSERT (negb (isNull network_channel)) ;;
  connect network_channel sig_disconnected slot_deleteLater.

(** [Host::~Host]. *)
Definition Host_dtor : M unit := stop.

(** ** The event loop

    The supervisor is driven by the notifications the event loop delivers
    to its slots, one at a time. *)

Inductive Event :=
| Call_start
| Call_stop
| Call_sessionChanged (event session_id : Z)
| Timer_fired (id : Z)
| Network_disconnected (n : handle)
| Network_messageWritten (n : handle)
| Network_messageReceived (n : handle) (buffer : QByteArray)
| Server_started (s : handle) (channel_id : string)
| Server_newConnection (s : handle)
| Server_errorOccurred (s : handle)
| Process_errorOccurred (p : handle)
| Process_finished (p : handle)
| Channel_disconnected (c : handle)
| Channel_messageReceived (c : handle) (buffer : QByteArray)
| Channel_messageWritten (c : handle).

Definition Connection_eqb (a b : Connection) : bool :=
  Nat.eqb (conn_sender a) (conn_sender b)
  && Signal_eqb (conn_signal a) (conn_signal b)
  && Slot_eqb (conn_slot a) (conn_slot b).

Definition connected (h : handle) (sig : Signal) (sl : Slot) (w : World) : bool :=
  existsb (Connection_eqb (mkConnection h sig sl)) (connections (heap w)).

Definition count_connected (h : handle) (sig : Signal) (sl : Slot) (w : World) : nat :=
  List.length (filter (Connection_eqb (mkConnection h sig sl)) (connections (heap w))).

Definition object_at (h : handle) (w : World) : option Obj :=
  lookup h (objects (heap w)).

Definition endpoint_at (h : handle) (w : World) : Endpoint :=
  match object_at h w with
  | Some (ONetworkChannel e) => e
  | Some (OIpcChannel e) => e
  | _ => new_endpoint
  end.


Definition take_read (e : Endpoint) : Endpoint :=
  mkEndpoint (pred (read_requests e)) (unacked e).

Definition take_write (e : Endpoint) : Endpoint :=
  mkEndpoint (read_requests e) (tl (unacked e)).

Definition oldest_write (h : handle) (w : World) : Z :=
  match unacked (endpoint_at h w) with
  | (message_id, _) :: _ => message_id
  | [] => 0
  end.

(** Modelled from the spec: the classes [NetworkChannel], [IpcChannel],
    [IpcServer] and [HostProcess] are not among the sources.  An endpoint
    delivers one received message per read it was asked for and one write
    completion per message it was given, oldest first, and only to a
    connected slot; a listener reports started once, then accepts one
    peer and ends; a process reports its exit or an error only once
    started; a timer fires only while it runs. *)
Definition enabled (ev : Event) (w : World) : bool :=
  match ev with
  | Call_start | Call_stop | Call_sessionChanged _ _ => true
  | Timer_fired id => existsb (Z.eqb id) (running (timers w))
  | Network_disconnected n =>
      match object_at n w with Some (ONetworkChannel _) => true | _ => false end
  | Network_messageWritten n =>
      connected n sig_messageWritten slot_networkMessageWritten w
      && match object_at n w with
         | Some (ONetworkChannel e) => negb (Nat.eqb (List.length (unacked e)) 0)
         | _ => false
         end
  | Network_messageReceived n _ =>
      connected n sig_messageReceived slot_networkMessageReceived w
      && match object_at n w with
         | Some (ONetworkChannel e) => negb (Nat.eqb (read_requests e) 0)
         | _ => false
         end
  | Server_started s _ =>
      connected s sig_started slot_ipcServerStarted w
      && match object_at s w with Some (OIpcServer false) => true | _ => false end
  | Server_newConnection s =>
      connected s sig_newConnection slot_ipcNewConnection w
      && match object_at s w with Some (OIpcServer true) => true | _ => false end
  | Server_errorOccurred s =>
      connected s sig_errorOccurred slot_stop w
      && match object_at s w with Some (OIpcServer _) => true | _ => false end
  | Process_errorOccurred p =>
      connected p sig_errorOccurred slot_stop w
      && match object_at p w with
         | Some (OHostProcess c) => proc_started c
         | _ => false
         end
  | Process_finished p =>
      connected p sig_finished slot_dettachSession w
      && match object_at p w with
         | Some (OHostProcess c) => proc_started c
         | _ => false
         end
  | Channel_disconnected c =>
      connected c sig_disconnected slot_dettachSession w
      && match object_at c w with Some (OIpcChannel _) => true | _ => false end
  | Channel_messageReceived c _ =>
      connected c sig_messageReceived slot_ipcMessageReceived w
      && match object_at c w with
         | Some (OIpcChannel e) => negb (Nat.eqb (read_requests e) 0)
         | _ => false
         end
  | Channel_messageWritten c =>
      connected c sig_messageWritten slot_ipcMessageWritten w
      && match object_at c w with
         | Some (OIpcChannel e) => negb (Nat.eqb (List.length (unacked e)) 0)
         | _ => false
         end
  end.

Fixpoint repeat_m (k : nat) (m : M unit) : M unit :=
  match k with
  | O => ret tt
  | S k' => m ;; repeat_m k' m
  end.

(** Modelled from the spec: the delivery of one notification.  The
    sender's bookkeeping comes first, then the connected slot runs, then
    what the sender does once the slot has returned (a listener that has
    handed over its peer or failed ends and is released; a disconnected
    network channel is released by its deferred deletion). *)
Definition deliver (ev : Event) : M unit :=
  match ev with
  | Call_start => start
  | Call_stop => stop
  | Call_sessionChanged event session_id => sessionChanged event session_id
  | Timer_fired id => timerEvent id
  | Network_disconnected n =>
      (fun w => repeat_m (count_connected n sig_disconnected slot_stop w) stop w) ;;
      (fun w => when (connected n sig_disconnected slot_deleteLater w) (destroy n) w)
  | Network_messageWritten n =>
      message_id <- (fun w => Ok (oldest_write n w) w) ;;
      modify_obj n (on_endpoint take_write) ;;
      networkMessageWritten message_id
  | Network_messageReceived n buffer =>
      modify_obj n (on_endpoint take_read) ;;
      networkMessageReceived buffer
  | Server_started s channel_id =>
      modify_obj s (fun _ => OIpcServer true) ;;
      ipcServerStarted channel_id
  | Server_newConnection s =>
      c <- alloc (OIpcChannel new_endpoint) ;;
      ipcNewConnection (Some c) ;;
      destroy s
  | Server_errorOccurred s =>
      stop ;;
      destroy s
  | Process_errorOccurred p => stop
  | Process_finished p =>
      modify_obj p (on_process (set_started false)) ;;
      dettachSession
  | Channel_disconnected c => dettachSession
  | Channel_messageReceived c buffer =>
      modify_obj c (on_endpoint take_read) ;;
      ipcMessageReceived buffer
  | Channel_messageWritten c =>
      message_id <- (fun w => Ok (oldest_write c w) w) ;;
      modify_obj c (on_endpoint take_write) ;;
      ipcMessageWritten message_id
  end.

Fixpoint run (evs : list Event) : M unit :=
  match evs with
  | [] => ret tt
  | ev :: rest => deliver ev ;; run rest
  end.

(** Every event of the sequence is enabled when its turn comes and its
    slot returns. *)
Fixpoint feasible (evs : list Event) (w : World) : bool :=
  match evs with
  | [] => true
  | ev :: rest =>
      enabled ev w
      && match deliver ev w with
         | Ok _ w' => feasible rest w'
         | _ => false
         end
  end.

(** The world before the supervisor is constructed: the authenticated
    network channel is object 0, no timer runs. *)
Definition boot (pf : Platform) (outcomes : list bool) : World :=
  mkWorld (mkMembers (SESSION_TYPE_other 0) 0 0 StoppedState None None None)
          pf
          (mkTimers [] 1 outcomes)
          (mkHeap [(O, ONetworkChannel new_endpoint)] 1%nat [])
          [].

Definition world_of (r : Result unit) (default : World) : World :=
  match r with
  | Ok _ w => w
  | Fatal _ w => w
  | OutOfFuel => default
  end.

(** A supervisor freshly constructed over the network channel. *)
Definition new_host (ty : SessionType) (pf : Platform) (outcomes : list bool) : World :=
  world_of (Host_ctor ty (Some O) (boot pf outcomes)) (boot pf outcomes).

(** ** Observations *)

Definition finished_count (tr : list Effect) : nat :=
  List.length (filter (fun e => match e with Finished => true | _ => false end) tr).

Definition startTimer_count (tr : list Effect) : nat :=
  List.length (filter (fun e => match e with StartTimer _ => true | _ => false end) tr).

Definition serverStart_count (tr : list Effect) : nat :=
  List.length (filter (fun e => match e with ServerStart _ => true | _ => false end) tr).

(** A build with [Q_ASSERT] active, on a machine whose console session
    is session 1. *)
Definition debug_build : Platform := mkPlatform false 1 "C:/aspia".

(** ** Notions used by the statements *)

(** What [release_session] logs: the kill of the worker, if there is one. *)
Definition kills (w : World) : list Effect :=
  match session_process_ (me w) with
  | Some h => [ProcessKill h]
  | None => []
  end.

(** What [finish] logs: the kill of the remembered timer, if any, then
    the notification. *)
Definition finish_log (w : World) : list Effect :=
  (if (attach_timer_id_ (me w) =? 0)%Z then []
   else [KillTimer (attach_timer_id_ (me w))]) ++ [Finished].

Definition finish_running (w : World) : list Z :=
  if (attach_timer_id_ (me w) =? 0)%Z then running (timers w)
  else filter (fun k => negb (k =? attach_timer_id_ (me w))%Z) (running (timers w)).

(** The re-arming of the timer at the end of [Host::dettachSession],
    with [k] for the call of [stop] when arming fails. *)
Definition rearm (k : M unit) : M unit :=
  id <- startTimer ;;
  modify (set_attach_timer_id_ id) ;;
  if (id =? 0)%Z then qWarning "Could not start the timer" ;; k
  else ret tt.

(** [Host::dettachSession] past its guard, with the nested [stop]
    replaced by what it does when the state is detached. *)
Definition dettach_active : M unit :=
  release_session ;;
  ty <- gets session_type_ ;;
  if is_file_transfer ty then finish else rearm finish.

(** [Host::stop] past its guard, likewise. *)
Definition stop_active : M unit := dettach_active ;; finish.

Definition is_active (st : State) : bool :=
  State_eqb st StartingState || State_eqb st AttachedState.

(** The account and the session-kind token of a worker launch, as the
    specification tabulates them. *)
Definition expected_launch (ty : SessionType) : option (Account * string) :=
  match ty with
  | SESSION_TYPE_DESKTOP_MANAGE => Some (Account_System, "desktop_manage")
  | SESSION_TYPE_DESKTOP_VIEW => Some (Account_System, "desktop_view")
  | SESSION_TYPE_FILE_TRANSFER => Some (Account_User, "file_transfer")
  | SESSION_TYPE_other _ => None
  end.

(** A supervisor for desktop management that attached, then saw the
    console disconnect: it is detached and waits for a reattach. *)
Definition detached_example : World :=
  world_of
    (run [Call_start; Server_started 1%nat "a"; Server_newConnection 1%nat;
          Call_sessionChanged WTS_CONSOLE_DISCONNECT 1]
         (new_host SESSION_TYPE_DESKTOP_MANAGE debug_build []))
    (boot debug_build []).





(** The first attach of a desktop session, and an attach that follows a
    detach during which a network write stayed unacknowledged. *)
Definition first_attach : list Event :=
  [Call_start; Server_started 1%nat "a"; Server_newConnection 1%nat].

Definition reattach_with_pending_write : list Event :=
  first_attach
  ++ [Channel_messageReceived 3%nat [x01];
      Call_sessionChanged WTS_CONSOLE_DISCONNECT 1;
      Call_sessionChanged WTS_CONSOLE_CONNECT 2;
      Server_started 4%nat "b"; Server_newConnection 4%nat;
      Channel_messageReceived 6%nat [x02]].

(** The world once the first attach has completed. *)
Definition attached_example (ty : SessionType) : World :=
  world_of (run first_attach (new_host ty debug_build [])) (boot debug_build []).

(** A supervisor in the starting state whose listener has just been
    started. *)
Definition starting_example (ty : SessionType) : World :=
  world_of (run [Call_start] (new_host ty debug_build [])) (boot debug_build []).


(** ** Notions used by the further properties *)

(** The next [startTimer] call succeeds. *)
Definition timer_starts (w : World) : bool :=
  match outcomes (timers w) with
  | false :: _ => false
  | _ => true
  end.

(** The supervisor remembers a timer only while it awaits an attach or a
    reattach. *)
Definition timer_forgotten_at_rest (w : World) : Prop :=
  state_ (me w) = StoppedState \/ state_ (me w) = AttachedState ->
  attach_timer_id_ (me w) = 0.

(** The first attach, with the channel id the listener reports. *)
Definition attach_events (channel_id : string) : list Event :=
  [Call_start; Server_started 1%nat channel_id; Server_newConnection 1%nat].

Definition is_known (ty : SessionType) : bool :=
  match ty with SESSION_TYPE_other _ => false | _ => true end.

(** Between two worlds, the state, the remembered timer and the number of
    [finished] notifications are the same. *)
Definition core_kept (w w' : World) : Prop :=
  state_ (me w') = state_ (me w)
  /\ attach_timer_id_ (me w') = attach_timer_id_ (me w)
  /\ finished_count (trace w') = finished_count (trace w).

(** What a notification can do to the state, the remembered timer and the
    [finished] notifications. *)
Definition outcome (w w' : World) : Prop :=
  core_kept w w'
  \/ (state_ (me w') = DetachedState
      /\ finished_count (trace w') = finished_count (trace w))
  \/ (state_ (me w') = StartingState
      /\ finished_count (trace w') = finished_count (trace w))
  \/ (state_ (me w') = AttachedState
      /\ attach_timer_id_ (me w') = 0
      /\ finished_count (trace w') = finished_count (trace w))
  \/ (state_ (me w') = StoppedState
      /\ attach_timer_id_ (me w') = 0
      /\ (finished_count (trace w) <= finished_count (trace w'))%nat).

(** A build with [Q_ASSERT] compiled out. *)
Definition release_build : Platform := mkPlatform true 1 "C:/aspia".

(** In a build without assertions: attached, then a console connect. *)
Definition reconnected_while_attached : World :=
  world_of
    (run (attach_events "a" ++ [Call_sessionChanged WTS_CONSOLE_CONNECT 2])
         (new_host SESSION_TYPE_DESKTOP_MANAGE release_build []))
    (boot release_build []).

(** Starting, with the listener ready and the worker launched. *)
Definition listening_example : World :=
  world_of
    (run [Call_start; Server_started 1%nat "a"]
         (new_host SESSION_TYPE_DESKTOP_VIEW debug_build []))
    (boot debug_build []).

End Host.

(** * Properties of the credential record *)

Section UserProperties.
Context {limits : UserLimits} {qt : QtText} {sha : Sha512}.
Import User.


Lemma isValidUserNameChar_allowed (c : QChar) :
  isValidUserNameChar c = true <-> allowed_char c.
Proof.
  unfold isValidUserNameChar, allowed_char, char_dot, char_underscore, char_minus.
  destruct (isLetter c); [intuition auto|].
  destruct (isDigit c); [intuition auto|].
  destruct (Z.eqb_spec c 46); [cbn; intuition auto|].
  destruct (Z.eqb_spec c 95); [cbn; intuition auto|].
  destruct (Z.eqb_spec c 45); [cbn; intuition auto|].
  cbn. intuition discriminate.
Qed.

Lemma all_valid_chars_false (value : QString) (c : QChar) :
  In c value -> ~ allowed_char c -> all_valid_chars value = false.
Proof.
  induction value as [|d rest IH]; intros Hin Hbad; [contradiction|].
  cbn [all_valid_chars].
  destruct (isValidUserNameChar d) eqn:Hd; cbn; [|reflexivity].
  destruct Hin as [->|Hin]; [|auto].
  apply isValidUserNameChar_allowed in Hd. contradiction.
Qed.

Lemma isValidName_false (value : QString) :
  value = [] \/ Z.of_nat (List.length value) > kMaxUserNameLength
  \/ (exists c, In c value /\ ~ allowed_char c) ->
  isValidName value = false.
Proof.
  unfold isValidName. intros [->|[Hlen|[c [Hin Hbad]]]].
  - reflexivity.
  - destruct (Z.of_nat (List.length value) <=? 0); [reflexivity|].
    destruct (Z.gtb_spec (Z.of_nat (List.length value)) kMaxUserNameLength);
      [reflexivity|lia].
  - destruct (_ || _); [reflexivity|].
    eapply all_valid_chars_false; eauto.
Qed.

Lemma isValidPassword_false (value : QString) :
  Z.of_nat (List.length value) < kMinPasswordLength
  \/ Z.of_nat (List.length value) > kMaxPasswordLength ->
  isValidPassword value = false.
Proof.
  unfold isValidPassword. intros [H|H].
  - destruct (Z.ltb_spec (Z.of_nat (List.length value)) kMinPasswordLength);
      [reflexivity|lia].
  - destruct (Z.of_nat (List.length value) <? kMinPasswordLength); [reflexivity|].
    destruct (Z.gtb_spec (Z.of_nat (List.length value)) kMaxPasswordLength);
      [reflexivity|lia].
Qed.

Lemma isValidPassword_true (value : QString) :
  kMinPasswordLength <= Z.of_nat (List.length value) <= kMaxPasswordLength ->
  isValidPassword value = true.
Proof.
  unfold isValidPassword. intros [Hlo Hhi].
  destruct (Z.ltb_spec (Z.of_nat (List.length value)) kMinPasswordLength); [lia|].
  destruct (Z.gtb_spec (Z.of_nat (List.length value)) kMaxPasswordLength); [lia|].
  reflexivity.
Qed.

Lemma isValidPasswordHash_false (value : std_string) :
  Z.of_nat (List.length value) <> kPasswordHashLength ->
  isValidPasswordHash value = false.
Proof.
  unfold isValidPasswordHash. intros H.
  destruct (Z.eqb_spec (Z.of_nat (List.length value)) kPasswordHashLength);
    [contradiction|reflexivity].
Qed.

(** The loop applies the hash once per iteration: it computes the iterate
    of the hash and counts one call for each. *)
Lemma createPasswordHash_loop_iter (remaining : nat) :
  forall data calls,
    createPasswordHash_loop remaining data calls
    = (Nat.iter remaining Sha512_hash data, (calls + remaining)%nat).
Proof.
  induction remaining as [|k IH]; intros data calls.
  - cbn. f_equal. lia.
  - cbn [createPasswordHash_loop]. rewrite IH.
    f_equal; [|lia].
    clear IH. induction k as [|k IHk]; [reflexivity|].
    change (Nat.iter (S k) Sha512_hash (Sha512_hash data))
      with (Sha512_hash (Nat.iter k Sha512_hash (Sha512_hash data))).
    rewrite IHk. reflexivity.
Qed.

(** C7. Whenever validation fails, [setName], [setPassword] and
    [setPasswordHash] return false and leave the credential record exactly
    as it was: an empty, over-long or wrongly spelt name; a password whose
    length is outside the bounds; a digest whose byte length is not the
    fixed digest size. *)
Theorem rejected_input_leaves_record_unchanged (u : User.t) :
  (forall name : QString,
      name = [] \/ Z.of_nat (List.length name) > kMaxUserNameLength
      \/ (exists c, In c name /\ ~ allowed_char c) ->
      setName name u = (false, u))
  /\ (forall (password : QString) (calls : nat),
         Z.of_nat (List.length password) < kMinPasswordLength
         \/ Z.of_nat (List.length password) > kMaxPasswordLength ->
         setPassword password u calls = (false, u, calls))
  /\ (forall digest : std_string,
         Z.of_nat (List.length digest) <> kPasswordHashLength ->
         setPasswordHash digest u = (false, u)).
Proof.
  split; [|split].
  - intros name H. unfold setName. now rewrite isValidName_false.
  - intros password calls H. unfold setPassword.
    now rewrite isValidPassword_false.
  - intros digest H. unfold setPasswordHash.
    now rewrite isValidPasswordHash_false.
Qed.

(** C8. A password accepted by [setPassword] (its length is within the
    bounds) is stored as the hash iterated 100000 times over the UTF-8
    encoding of the password, at the cost of 100000 hash calls; a password
    whose length is outside the bounds is rejected with no hash call made
    and nothing stored. *)
Theorem setPassword_stores_iterated_hash (value : QString) (u : User.t) (calls : nat) :
  (kMinPasswordLength <= Z.of_nat (List.length value) <= kMaxPasswordLength ->
   setPassword value u calls
   = (true,
      User.mk (name_ u)
              (Nat.iter (Z.to_nat 100000) Sha512_hash (toStdString value))
              (flags_ u) (sessions_ u),
      (calls + Z.to_nat 100000)%nat))
  /\ (Z.of_nat (List.length value) < kMinPasswordLength
      \/ Z.of_nat (List.length value) > kMaxPasswordLength ->
      setPassword value u calls = (false, u, calls)).
Proof.
  split; intros H; unfold setPassword.
  - rewrite isValidPassword_true by assumption. cbn [negb].
    unfold createPasswordHash, kIterCount.
    rewrite createPasswordHash_loop_iter.
    rewrite Z.sub_0_r. reflexivity.
  - now rewrite isValidPassword_false.
Qed.

End UserProperties.

(** * Properties of the session supervisor *)

Section HostProperties.
Import Host.

Ltac open_world w :=
  destruct w as [[ty sid tid st nc ic sp] pf [rn nx oc] [objs nh cs] tr].

Ltac heap_simpl := repeat (progress (cbn; rewrite ?Nat.eqb_refl)).

(** ** The monad *)

Lemma bind_ok {A B} (m : M A) (k : A -> M B) (w w' : World) (a : A) :
  m w = Ok a w' -> bind m k w = k a w'.
Proof. unfold bind. now intros ->. Qed.

Ltac step_with R :=
  match type of R with
  | ?m ?w = Ok ?a ?w' => rewrite (bind_ok m _ w w' a R)
  end.

Lemma bind_ext_on {A B} (m : M A) (k k' : A -> M B) (w : World) :
  (forall a w', m w = Ok a w' -> k a w' = k' a w') ->
  bind m k w = bind m k' w.
Proof.
  unfold bind. intros H. destruct (m w) as [a w'| |]; auto.
Qed.

(** ** The two blocks of the teardown *)

Lemma clear_pointer_same (h : handle) : clear_pointer h (Some h) = None.
Proof. cbn. now rewrite Nat.eqb_refl. Qed.

Lemma clear_pointer_twice (h h' : handle) (p : QPointer) :
  clear_pointer h' (clear_pointer h' p) = clear_pointer h' p.
Proof.
  destruct p as [k|]; cbn; [|reflexivity].
  destruct (Nat.eqb k h') eqn:E; cbn; [reflexivity|]. now rewrite E.
Qed.


Lemma release_session_spec (w : World) :
  exists w',
    release_session w = Ok tt w'
    /\ state_ (me w') = DetachedState
    /\ session_process_ (me w') = None
    /\ ipc_channel_ (me w') = None
    /\ session_type_ (me w') = session_type_ (me w)
    /\ session_id_ (me w') = session_id_ (me w)
    /\ attach_timer_id_ (me w') = attach_timer_id_ (me w)
    /\ platform w' = platform w
    /\ timers w' = timers w
    /\ next_handle (heap w') = next_handle (heap w)
    /\ trace w' = trace w ++ kills w.
Proof.
  open_world w. unfold release_session, kills. cbn.
  destruct sp as [p|]; destruct ic as [c|]; cbn;
    [destruct (Nat.eqb c p) eqn:E; cbn| | |];
    (eexists; split; [reflexivity|]); cbn;
    rewrite ?Nat.eqb_refl; try rewrite E; cbn; rewrite ?Nat.eqb_refl;
    repeat match goal with
           | |- context [Nat.eqb ?a ?b] => destruct (Nat.eqb a b)
           end;
    rewrite ?app_nil_r; repeat split; reflexivity.
Qed.


Lemma finish_spec (w : World) :
  exists w',
    finish w = Ok tt w'
    /\ me w' = set_attach_timer_id_ 0 (set_state_ StoppedState (me w))
    /\ platform w' = platform w
    /\ running (timers w') = finish_running w
    /\ next_timer_id (timers w') = next_timer_id (timers w)
    /\ outcomes (timers w') = outcomes (timers w)
    /\ heap w' = heap w
    /\ trace w' = trace w ++ finish_log w.
Proof.
  open_world w. unfold finish, finish_log, finish_running. cbn.
  destruct (Z.eqb_spec tid 0) as [->|Hne]; cbn.
  - eexists; split; [reflexivity|]. cbn. repeat split; reflexivity.
  - eexists; split; [reflexivity|]. cbn.
    repeat split; try reflexivity. now rewrite <- app_assoc.
Qed.

(** ** [stop] and [dettachSession], one nesting level at a time *)

Lemma stop_at_stopped (d : nat) (w : World) :
  state_ (me w) = StoppedState -> stop_at (S d) w = Ok tt w.
Proof. open_world w. cbn. now intros ->. Qed.

Lemma dettachSession_at_idle (d : nat) (w : World) :
  state_ (me w) = StoppedState \/ state_ (me w) = DetachedState ->
  dettachSession_at (S d) w = Ok tt w.
Proof. open_world w. cbn. now intros [-> | ->]. Qed.

Lemma stop_at_detached (d : nat) (w : World) :
  state_ (me w) = DetachedState -> stop_at (S (S d)) w = finish w.
Proof.
  intros H. change (stop_at (S (S d)))
    with (st <- gets state_ ;;
          if State_eqb st StoppedState then ret tt
          else dettachSession_at (S d) ;; finish).
  unfold bind at 1, gets at 1. rewrite H. cbn [State_eqb].
  erewrite bind_ok by (apply dettachSession_at_idle; now right).
  reflexivity.
Qed.

Lemma startTimer_me (w w' : World) (id : Z) :
  startTimer w = Ok id w' -> me w' = me w.
Proof.
  open_world w. unfold startTimer. cbn.
  destruct oc as [|[|] oc']; intros H; inversion H; reflexivity.
Qed.

Lemma rearm_detached (d : nat) (w : World) :
  state_ (me w) = DetachedState ->
  rearm (stop_at (S (S d))) w = rearm finish w.
Proof.
  intros H. unfold rearm.
  apply bind_ext_on. intros id w1 H1.
  apply bind_ext_on. intros [] w2 H2.
  destruct (id =? 0)%Z; [|reflexivity].
  apply bind_ext_on. intros [] w3 H3.
  apply stop_at_detached.
  apply startTimer_me in H1.
  unfold modify in H2. inversion H2; subst w2; clear H2.
  unfold qWarning, log in H3. inversion H3; subst w3; clear H3.
  cbn. rewrite H1. exact H.
Qed.

Lemma dettachSession_at_active (d : nat) (w : World) :
  is_active (state_ (me w)) = true ->
  dettachSession_at (S (S (S d))) w = dettach_active w.
Proof.
  intros H.
  change (dettachSession_at (S (S (S d))))
    with (st <- gets state_ ;;
          if State_eqb st StoppedState || State_eqb st DetachedState then ret tt
          else
            release_session ;;
            ty <- gets session_type_ ;;
            if is_file_transfer ty then stop_at (S (S d))
            else rearm (stop_at (S (S d)))).
  unfold bind at 1, gets at 1.
  assert (E : State_eqb (state_ (me w)) StoppedState
              || State_eqb (state_ (me w)) DetachedState = false)
    by (destruct (state_ (me w)); cbn in *; congruence).
  rewrite E. unfold dettach_active.
  apply bind_ext_on. intros [] w1 H1.
  destruct (release_session_spec w) as [w1' [R [Hst _]]].
  rewrite R in H1. inversion H1; subst w1'; clear H1.
  apply bind_ext_on. intros ty1 w2 H2.
  unfold gets in H2. inversion H2; subst ty1 w2; clear H2.
  destruct (is_file_transfer (session_type_ (me w1))).
  - now apply stop_at_detached.
  - now apply rearm_detached.
Qed.

Lemma stop_at_active (d : nat) (w : World) :
  is_active (state_ (me w)) = true ->
  stop_at (S (S (S (S d)))) w = stop_active w.
Proof.
  intros H.
  change (stop_at (S (S (S (S d)))))
    with (st <- gets state_ ;;
          if State_eqb st StoppedState then ret tt
          else dettachSession_at (S (S (S d))) ;; finish).
  unfold bind at 1, gets at 1.
  assert (E : State_eqb (state_ (me w)) StoppedState = false)
    by (destruct (state_ (me w)); cbn in *; congruence).
  rewrite E. unfold stop_active, bind.
  now rewrite dettachSession_at_active.
Qed.

(** [stop], by the state it is called in. *)
Lemma stop_cases (w : World) :
  stop w = match state_ (me w) with
           | StoppedState => Ok tt w
           | DetachedState => finish w
           | StartingState | AttachedState => stop_active w
           end.
Proof.
  unfold stop, max_nesting. destruct (state_ (me w)) eqn:E.
  - now apply stop_at_stopped.
  - apply stop_at_active. now rewrite E.
  - now apply stop_at_detached.
  - apply stop_at_active. now rewrite E.
Qed.

(** [dettachSession], by the state it is called in. *)
Lemma dettachSession_cases (w : World) :
  dettachSession w = match state_ (me w) with
                     | StoppedState | DetachedState => Ok tt w
                     | StartingState | AttachedState => dettach_active w
                     end.
Proof.
  unfold dettachSession, max_nesting. destruct (state_ (me w)) eqn:E.
  - apply dettachSession_at_idle. now left.
  - apply dettachSession_at_active. now rewrite E.
  - apply dettachSession_at_idle. now right.
  - apply dettachSession_at_active. now rewrite E.
Qed.

(** Four levels of nesting are enough: more fuel changes nothing. *)
Lemma stop_at_enough (d : nat) (w : World) :
  stop_at (max_nesting + d) w = stop w.
Proof.
  rewrite stop_cases. unfold max_nesting. cbn [Nat.add].
  destruct (state_ (me w)) eqn:E.
  - now apply stop_at_stopped.
  - apply stop_at_active. now rewrite E.
  - now apply stop_at_detached.
  - apply stop_at_active. now rewrite E.
Qed.

Lemma dettachSession_at_enough (d : nat) (w : World) :
  dettachSession_at (max_nesting + d) w = dettachSession w.
Proof.
  rewrite dettachSession_cases. unfold max_nesting. cbn [Nat.add].
  destruct (state_ (me w)) eqn:E.
  - apply dettachSession_at_idle. now left.
  - apply dettachSession_at_active. now rewrite E.
  - apply dettachSession_at_idle. now right.
  - apply dettachSession_at_active. now rewrite E.
Qed.

(** ** [stop] and [dettachSession] return *)

Lemma startTimer_returns (w : World) :
  exists id w', startTimer w = Ok id w' /\ me w' = me w.
Proof.
  open_world w. unfold startTimer. cbn.
  destruct oc as [|[|] oc']; do 2 eexists; split; reflexivity.
Qed.

Lemma dettach_active_returns (w : World) :
  exists w',
    dettach_active w = Ok tt w'
    /\ (state_ (me w') = DetachedState \/ state_ (me w') = StoppedState).
Proof.
  destruct (release_session_spec w) as [w1 [R [Hst _]]].
  unfold dettach_active. step_with R.
  unfold bind at 1, gets at 1.
  destruct (is_file_transfer (session_type_ (me w1))).
  - destruct (finish_spec w1) as [w2 [F [Hme _]]].
    exists w2. split; [exact F|]. right. now rewrite Hme.
  - destruct (startTimer_returns w1) as [id [w2 [T Hme2]]].
    unfold rearm. step_with T.
    unfold bind at 1, modify at 1.
    destruct (id =? 0)%Z.
    + unfold bind at 1, qWarning, log.
      match goal with |- context [finish ?v] => destruct (finish_spec v) as [w3 [F [Hme _]]] end.
      exists w3. split; [exact F|]. right. now rewrite Hme.
    + eexists. split; [reflexivity|]. left. cbn. now rewrite Hme2.
Qed.

(** [stop] always returns, in the stopped state; a further [stop] then
    does nothing at all. *)
Lemma stop_returns (w : World) :
  exists w', stop w = Ok tt w' /\ state_ (me w') = StoppedState
             /\ stop w' = Ok tt w'.
Proof.
  assert (H : exists w', stop w = Ok tt w' /\ state_ (me w') = StoppedState).
  { rewrite stop_cases. destruct (state_ (me w)) eqn:E.
    - exists w. now split.
    - destruct (dettach_active_returns w) as [w1 [D _]].
      destruct (finish_spec w1) as [w2 [F [Hme _]]].
      exists w2. unfold stop_active. step_with D.
      split; [exact F|]. now rewrite Hme.
    - destruct (finish_spec w) as [w2 [F [Hme _]]].
      exists w2. split; [exact F|]. now rewrite Hme.
    - destruct (dettach_active_returns w) as [w1 [D _]].
      destruct (finish_spec w1) as [w2 [F [Hme _]]].
      exists w2. unfold stop_active. step_with D.
      split; [exact F|]. now rewrite Hme. }
  destruct H as [w' [S1 Hst]]. exists w'.
  split; [exact S1|]. split; [exact Hst|].
  rewrite stop_cases, Hst. reflexivity.
Qed.

Lemma dettachSession_returns (w : World) :
  exists w', dettachSession w = Ok tt w'.
Proof.
  rewrite dettachSession_cases. destruct (state_ (me w)).
  - now exists w.
  - destruct (dettach_active_returns w) as [w1 [D _]]. now exists w1.
  - now exists w.
  - destruct (dettach_active_returns w) as [w1 [D _]]. now exists w1.
Qed.

(** ** Counting in the trace *)

Lemma startTimer_count_app (a b : list Effect) :
  startTimer_count (a ++ b) = (startTimer_count a + startTimer_count b)%nat.
Proof. unfold startTimer_count. now rewrite filter_app, length_app. Qed.

Lemma serverStart_count_app (a b : list Effect) :
  serverStart_count (a ++ b) = (serverStart_count a + serverStart_count b)%nat.
Proof. unfold serverStart_count. now rewrite filter_app, length_app. Qed.

Lemma finished_count_app (a b : list Effect) :
  finished_count (a ++ b) = (finished_count a + finished_count b)%nat.
Proof. unfold finished_count. now rewrite filter_app, length_app. Qed.

Lemma kills_counts (w : World) :
  startTimer_count (kills w) = 0%nat /\ serverStart_count (kills w) = 0%nat
  /\ finished_count (kills w) = 0%nat.
Proof. unfold kills. destruct (session_process_ (me w)); now cbn. Qed.

Lemma finish_log_counts (w : World) :
  startTimer_count (finish_log w) = 0%nat /\ serverStart_count (finish_log w) = 0%nat
  /\ finished_count (finish_log w) = 1%nat.
Proof. unfold finish_log. destruct (_ =? _)%Z; now cbn. Qed.

(** ** Detach of a file transfer session *)

Lemma dettach_active_file_transfer (w : World) :
  session_type_ (me w) = SESSION_TYPE_FILE_TRANSFER ->
  exists w',
    dettach_active w = Ok tt w'
    /\ state_ (me w') = StoppedState
    /\ session_process_ (me w') = None
    /\ ipc_channel_ (me w') = None
    /\ attach_timer_id_ (me w') = 0
    /\ next_timer_id (timers w') = next_timer_id (timers w)
    /\ outcomes (timers w') = outcomes (timers w)
    /\ next_handle (heap w') = next_handle (heap w)
    /\ exists w1, release_session w = Ok tt w1
                  /\ trace w' = trace w ++ kills w ++ finish_log w1.
Proof.
  intros Hty.
  destruct (release_session_spec w)
    as [w1 [R [Hst [Hsp [Hic [Hty1 [_ [Htid [_ [Htm [Hnh Htr]]]]]]]]]]].
  destruct (finish_spec w1) as [w2 [F [Hme [_ [_ [Hnx [Hoc [Hhp Htr2]]]]]]]].
  exists w2. unfold dettach_active.
  step_with R.
  unfold bind at 1, gets at 1. rewrite Hty1, Hty. cbn [is_file_transfer].
  split; [exact F|]. rewrite Hme. cbn.
  repeat split; try assumption; try congruence.
  exists w1. split; [exact R|].
  rewrite Htr2, Htr. now rewrite <- app_assoc.
Qed.

Definition is_detach_event (ev : Event) : bool :=
  match ev with
  | Call_sessionChanged event _ => (event =? WTS_CONSOLE_DISCONNECT)%Z
  | Process_finished _ | Channel_disconnected _ => true
  | _ => false
  end.

Lemma modify_obj_spec (h : handle) (f : Obj -> Obj) (w : World) :
  exists w',
    modify_obj h f w = Ok tt w'
    /\ me w' = me w /\ platform w' = platform w /\ timers w' = timers w
    /\ trace w' = trace w
    /\ next_handle (heap w') = next_handle (heap w)
    /\ objects (heap w') = update h f (objects (heap w))
    /\ connections (heap w') = connections (heap w).
Proof. eexists. split; [reflexivity|]. cbn. repeat split. Qed.

(** C2. For a file transfer session, every detach that occurs while the
    supervisor is attached (console disconnect, exit of the worker, loss
    of the IPC channel) ends in the stopped state within the same
    notification: no timer is started, no listener is created or started
    (no reattach), and [finished] is emitted once. *)
Theorem file_transfer_detach_stops (ev : Event) (w : World) :
  is_detach_event ev = true ->
  session_type_ (me w) = SESSION_TYPE_FILE_TRANSFER ->
  state_ (me w) = AttachedState ->
  exists w',
    deliver ev w = Ok tt w'
    /\ state_ (me w') = StoppedState
    /\ startTimer_count (trace w') = startTimer_count (trace w)
    /\ next_timer_id (timers w') = next_timer_id (timers w)
    /\ serverStart_count (trace w') = serverStart_count (trace w)
    /\ next_handle (heap w') = next_handle (heap w)
    /\ finished_count (trace w') = S (finished_count (trace w)).
Proof.
  intros Hev Hty Hst.
  assert (D : forall v, me v = me w ->
            exists w', dettachSession v = Ok tt w'
              /\ state_ (me w') = StoppedState
              /\ startTimer_count (trace w') = startTimer_count (trace v)
              /\ next_timer_id (timers w') = next_timer_id (timers v)
              /\ serverStart_count (trace w') = serverStart_count (trace v)
              /\ next_handle (heap w') = next_handle (heap v)
              /\ finished_count (trace w') = S (finished_count (trace v))).
  { intros v Hv. rewrite dettachSession_cases, Hv, Hst.
    destruct (dettach_active_file_transfer v) as
      [w' [R [H1 [_ [_ [_ [H2 [_ [H3 [w1 [_ Htr]]]]]]]]]]];
      [now rewrite Hv|].
    exists w'. split; [exact R|]. rewrite Htr.
    rewrite !startTimer_count_app, !serverStart_count_app, !finished_count_app.
    destruct (kills_counts v) as [-> [-> ->]].
    destruct (finish_log_counts w1) as [-> [-> ->]].
    repeat split; try assumption; lia. }
  destruct ev; try discriminate Hev; cbn [deliver].
  - cbn in Hev. unfold sessionChanged, bind at 1, gets at 1.
    rewrite Hst. cbn [State_eqb negb andb].
    rewrite Hev.
    replace (event =? WTS_CONSOLE_CONNECT)%Z with false
      by (apply Z.eqb_eq in Hev; subst event; reflexivity).
    now apply D.
  - destruct (modify_obj_spec p (on_process (set_started false)) w)
      as [v [R [Hme [_ [Htm [Htr [Hnh _]]]]]]].
    step_with R.
    destruct (D v Hme) as [w' H]. exists w'.
    now rewrite <- Htm, <- Htr, <- Hnh.
  - now apply D.
Qed.

(** ** The relay without a peer *)

(** C10. A message received from the network while no IPC channel is
    attached, and a message received from the IPC channel while the
    network channel is gone, is dropped: the slot returns with the world
    exactly as it was, so nothing is forwarded, nothing is kept for later
    and no member of the supervisor changes. *)
Theorem message_without_peer_is_dropped (buffer : QByteArray) (w : World) :
  (ipc_channel_ (me w) = None -> networkMessageReceived buffer w = Ok tt w)
  /\ (network_channel_ (me w) = None -> ipcMessageReceived buffer w = Ok tt w).
Proof.
  split; intros H.
  - unfold networkMessageReceived, bind, gets. now rewrite H.
  - unfold ipcMessageReceived, bind, gets. now rewrite H.
Qed.

(** ** The attach sequence *)

Lemma attachSession_spec (session_id : Z) (w : World) :
  exists w',
    attachSession session_id w = Ok tt w'
    /\ me w' = set_session_id_ session_id (set_state_ StartingState (me w))
    /\ platform w' = platform w
    /\ timers w' = timers w
    /\ objects (heap w') = (next_handle (heap w), OIpcServer false) :: objects (heap w)
    /\ next_handle (heap w') = S (next_handle (heap w))
    /\ trace w' = trace w ++ [ServerStart (next_handle (heap w))].
Proof.
  open_world w. unfold attachSession. cbn.
  eexists. split; [reflexivity|]. cbn. repeat split.
Qed.

(** C9. A console connect delivered while the supervisor is attached
    starts a new attach sequence: the state goes back to starting, the new
    session id is recorded, and a fresh listener is created and started;
    the worker and the IPC channel of the running attach are neither
    killed nor deleted, and stay owned. *)
Theorem connect_while_attached_restarts_attach (session_id : Z) (w : World) :
  state_ (me w) = AttachedState ->
  exists w',
    sessionChanged WTS_CONSOLE_CONNECT session_id w = Ok tt w'
    /\ state_ (me w') = StartingState
    /\ session_id_ (me w') = session_id
    /\ session_process_ (me w') = session_process_ (me w)
    /\ ipc_channel_ (me w') = ipc_channel_ (me w)
    /\ objects (heap w') = (next_handle (heap w), OIpcServer false) :: objects (heap w)
    /\ trace w' = trace w ++ [ServerStart (next_handle (heap w))]
    /\ timers w' = timers w.
Proof.
  intros Hst.
  destruct (attachSession_spec session_id w) as [w' [A [Hme [_ [Htm [Hob [_ Htr]]]]]]].
  exists w'. unfold sessionChanged, bind at 1, gets at 1.
  rewrite Hst. cbn [State_eqb negb andb]. cbn [WTS_CONSOLE_CONNECT Z.eqb Pos.eqb].
  split; [exact A|]. rewrite Hme. cbn. repeat split; assumption.
Qed.

(** ** The launch of the worker *)

(** C6. Every launch of a worker follows the session kind: the system
    account for desktop manage and desktop view, the user account for
    file transfer; the arguments are exactly [--channel_id <id>
    --session_type <token>] with the token of the kind; the worker is set
    to the session the supervisor recorded.  With any other session kind
    the slot does not return: the process ends in a fatal error and no
    worker is started.  With a known kind, in the starting state and with
    no worker yet, the launch happens. *)
Theorem worker_launch_follows_session_kind (channel_id : string) (w : World) :
  (forall w', ipcServerStarted channel_id w = Ok tt w' ->
     exists account token config,
       expected_launch (session_type_ (me w)) = Some (account, token)
       /\ trace w' = trace w ++ [ProcessStart (next_handle (heap w)) config]
       /\ proc_account config = Some account
       /\ proc_arguments config
          = ["--channel_id"; channel_id; "--session_type"; token]%string
       /\ proc_session_id config = Some (session_id_ (me w))
       /\ session_process_ (me w') = Some (next_handle (heap w)))
  /\ (forall v, session_type_ (me w) = SESSION_TYPE_other v ->
        exists msg w', ipcServerStarted channel_id w = Fatal msg w'
                       /\ trace w' = trace w)
  /\ (state_ (me w) = StartingState -> session_process_ (me w) = None ->
      expected_launch (session_type_ (me w)) <> None ->
      exists w', ipcServerStarted channel_id w = Ok tt w').
Proof.
  open_world w. destruct pf as [nd acs dir]. cbn [me session_type_ state_
    session_process_ session_id_ heap next_handle trace].
  split; [|split].
  - intros w'. unfold ipcServerStarted, HostProcess_start, process_config.
    destruct nd, st, sp as [p|], ty; heap_simpl;
      intros H; inversion H; subst; clear H;
      do 3 eexists; heap_simpl; repeat split; reflexivity.
  - intros v ->. unfold ipcServerStarted.
    destruct nd, st, sp as [p|]; heap_simpl;
      do 2 eexists; split; reflexivity.
  - intros -> -> Hty. unfold ipcServerStarted, HostProcess_start, process_config.
    destruct nd, ty; heap_simpl;
      try (eexists; reflexivity); now contradiction Hty.
Qed.



(** ** Reconnect while detached *)



(** ** Failing runs of [stop] and of the timer *)

(** Outside the stopped state [finish] runs, and for an active file
    transfer session it runs twice: once in the [stop] nested in
    [dettachSession], once more in the outer [stop]. *)
Lemma stop_of_active_file_transfer (w : World) :
  session_type_ (me w) = SESSION_TYPE_FILE_TRANSFER ->
  is_active (state_ (me w)) = true ->
  exists w',
    stop w = Ok tt w'
    /\ state_ (me w') = StoppedState
    /\ finished_count (trace w') = S (S (finished_count (trace w))).
Proof.
  intros Hty Hact.
  destruct (dettach_active_file_transfer w Hty)
    as [w1 [D [_ [_ [_ [_ [_ [_ [_ [v [_ Htr]]]]]]]]]]].
  destruct (finish_spec w1) as [w2 [F [Hme [_ [_ [_ [_ [_ Htr2]]]]]]]].
  exists w2. rewrite stop_cases.
  replace (match state_ (me w) with
           | StoppedState => Ok tt w
           | DetachedState => finish w
           | _ => stop_active w
           end) with (stop_active w)
    by (destruct (state_ (me w)); cbn in Hact; congruence).
  unfold stop_active. step_with D. split; [exact F|].
  rewrite Hme, Htr2, Htr. split; [reflexivity|].
  rewrite !finished_count_app.
  destruct (kills_counts w) as [_ [_ ->]].
  destruct (finish_log_counts v) as [_ [_ ->]].
  destruct (finish_log_counts w1) as [_ [_ ->]]. lia.
Qed.

(** C1, on the code: a file transfer supervisor is started and attached,
    with nothing notified yet; one call of [stop] then emits [finished]
    twice, and a second call adds nothing. *)
Theorem stop_of_attached_file_transfer_finishes_twice :
  let w0 := new_host SESSION_TYPE_FILE_TRANSFER debug_build [] in
  feasible (first_attach ++ [Call_stop; Call_stop]) w0 = true
  /\ (exists w, run first_attach w0 = Ok tt w
                /\ state_ (me w) = AttachedState
                /\ finished_count (trace w) = 0%nat)
  /\ (exists w, run (first_attach ++ [Call_stop]) w0 = Ok tt w
                /\ finished_count (trace w) = 2%nat)
  /\ (exists w, run (first_attach ++ [Call_stop; Call_stop]) w0 = Ok tt w
                /\ finished_count (trace w) = 2%nat
                /\ state_ (me w) = StoppedState
                /\ session_process_ (me w) = None
                /\ ipc_channel_ (me w) = None).
Proof.
  cbv zeta. split; [vm_compute; reflexivity|].
  split; [|split]; (eexists; split; [vm_compute; reflexivity|]); repeat split.
Qed.

(** C3, on the code: a desktop supervisor is started and stopped before
    any worker has connected, by a call of [stop] or by the expiry of the
    attach timer; the timer armed by [start] is still running in the
    stopped state, no longer remembered, and its expiry is still
    delivered.  And when the worker exits before it has connected, two
    timers run at once. *)
Theorem timer_of_start_outlives_detach :
  let w0 := new_host SESSION_TYPE_DESKTOP_MANAGE debug_build [] in
  let exit := [Call_start; Server_started 1%nat "a"%string; Process_finished 2%nat] in
  feasible [Call_start; Call_stop; Timer_fired 1] w0 = true
  /\ (exists w, run [Call_start] w0 = Ok tt w
                /\ state_ (me w) = StartingState
                /\ running (timers w) = [1]
                /\ attach_timer_id_ (me w) = 1)
  /\ (exists w, run [Call_start; Call_stop] w0 = Ok tt w
                /\ state_ (me w) = StoppedState
                /\ running (timers w) = [1]
                /\ attach_timer_id_ (me w) = 0
                /\ trace w = [StartTimer 1; ServerStart 1%nat; StartTimer 2;
                              KillTimer 2; Finished])
  /\ feasible [Call_start; Timer_fired 1; Timer_fired 1] w0 = true
  /\ (exists w, run [Call_start; Timer_fired 1] w0 = Ok tt w
                /\ state_ (me w) = StoppedState
                /\ running (timers w) = [1]
                /\ attach_timer_id_ (me w) = 0)
  /\ feasible exit w0 = true
  /\ (exists w, run exit w0 = Ok tt w
                /\ state_ (me w) = DetachedState
                /\ running (timers w) = [2; 1]
                /\ attach_timer_id_ (me w) = 2).
Proof.
  cbv zeta. split; [vm_compute; reflexivity|].
  split; [eexists; split; [vm_compute; reflexivity|]; repeat split|].
  split; [eexists; split; [vm_compute; reflexivity|]; repeat split|].
  split; [vm_compute; reflexivity|].
  split; [eexists; split; [vm_compute; reflexivity|]; repeat split|].
  split; [vm_compute; reflexivity|].
  eexists; split; [vm_compute; reflexivity|]; repeat split.
Qed.

(** ** The relay *)









End HostProperties.

(** * The theorems at concrete inputs *)

Section ConcreteInputs.
Import Host.

Lemma file_transfer_detach_stops_witness :
  let w := attached_example SESSION_TYPE_FILE_TRANSFER in
  let ev := Channel_disconnected 3%nat in
  (is_detach_event ev = true
   /\ session_type_ (me w) = SESSION_TYPE_FILE_TRANSFER
   /\ state_ (me w) = AttachedState)
  /\ exists w',
      deliver ev w = Ok tt w'
      /\ state_ (me w') = StoppedState
      /\ startTimer_count (trace w') = startTimer_count (trace w)
      /\ next_timer_id (timers w') = next_timer_id (timers w)
      /\ serverStart_count (trace w') = serverStart_count (trace w)
      /\ next_handle (heap w') = next_handle (heap w)
      /\ finished_count (trace w') = S (finished_count (trace w)).
Proof.
  cbv zeta. split; [repeat split; vm_compute; reflexivity|].
  apply (file_transfer_detach_stops (Channel_disconnected 3%nat)
           (attached_example SESSION_TYPE_FILE_TRANSFER));
    vm_compute; reflexivity.
Defined.



Lemma connect_while_attached_restarts_attach_witness :
  let w := attached_example SESSION_TYPE_DESKTOP_MANAGE in
  state_ (me w) = AttachedState
  /\ exists w',
      sessionChanged WTS_CONSOLE_CONNECT 7 w = Ok tt w'
      /\ state_ (me w') = StartingState
      /\ session_id_ (me w') = 7
      /\ session_process_ (me w') = session_process_ (me w)
      /\ ipc_channel_ (me w') = ipc_channel_ (me w)
      /\ objects (heap w') = (next_handle (heap w), OIpcServer false) :: objects (heap w)
      /\ trace w' = trace w ++ [ServerStart (next_handle (heap w))]
      /\ timers w' = timers w.
Proof.
  cbv zeta.
  assert (Hst : state_ (me (attached_example SESSION_TYPE_DESKTOP_MANAGE))
                = AttachedState) by (vm_compute; reflexivity).
  split; [exact Hst|].
  exact (connect_while_attached_restarts_attach 7
           (attached_example SESSION_TYPE_DESKTOP_MANAGE) Hst).
Defined.

Lemma worker_launch_follows_session_kind_witness :
  let w := starting_example SESSION_TYPE_DESKTOP_VIEW in
  (state_ (me w) = StartingState /\ session_process_ (me w) = None
   /\ expected_launch (session_type_ (me w)) <> None)
  /\ exists w', ipcServerStarted "a" w = Ok tt w'
      /\ exists account token config,
          expected_launch (session_type_ (me w)) = Some (account, token)
          /\ trace w' = trace w ++ [ProcessStart (next_handle (heap w)) config]
          /\ proc_account config = Some account
          /\ proc_arguments config
             = ["--channel_id"; "a"; "--session_type"; token]%string
          /\ proc_session_id config = Some (session_id_ (me w))
          /\ session_process_ (me w') = Some (next_handle (heap w)).
Proof.
  cbv zeta.
  assert (Hst : state_ (me (starting_example SESSION_TYPE_DESKTOP_VIEW))
                = StartingState) by (vm_compute; reflexivity).
  assert (Hsp : session_process_ (me (starting_example SESSION_TYPE_DESKTOP_VIEW))
                = None) by (vm_compute; reflexivity).
  assert (H : expected_launch
                (session_type_ (me (starting_example SESSION_TYPE_DESKTOP_VIEW)))
              <> None) by (vm_compute; discriminate).
  split; [split; [exact Hst|split; [exact Hsp|exact H]]|].
  destruct (worker_launch_follows_session_kind
              "a" (starting_example SESSION_TYPE_DESKTOP_VIEW)) as [Hok [_ Hrun]].
  destruct (Hrun Hst Hsp H) as [w' R].
  exists w'. split; [exact R|]. exact (Hok w' R).
Defined.

Lemma message_without_peer_is_dropped_witness :
  let w := starting_example SESSION_TYPE_DESKTOP_MANAGE in
  ipc_channel_ (me w) = None
  /\ networkMessageReceived [x01; x02] w = Ok tt w.
Proof.
  cbv zeta.
  assert (Hic : ipc_channel_ (me (starting_example SESSION_TYPE_DESKTOP_MANAGE))
                = None) by (vm_compute; reflexivity).
  split; [exact Hic|].
  exact (proj1 (message_without_peer_is_dropped
                  [x01; x02] (starting_example SESSION_TYPE_DESKTOP_MANAGE)) Hic).
Defined.

Lemma rejected_input_leaves_record_unchanged_witness :
  let L := User.sample_limits in
  let Q := User.sample_text in
  let H := User.sample_sha in
  @User.setName L Q [] User.sample_user = (false, User.sample_user)
  /\ @User.setName L Q [97; 32; 98] User.sample_user = (false, User.sample_user)
  /\ @User.setPassword L Q H [112; 119] User.sample_user 0
     = (false, User.sample_user, 0%nat)
  /\ @User.setPasswordHash L [x01; x02; x03] User.sample_user
     = (false, User.sample_user).
Proof.
  cbv zeta.
  destruct (@rejected_input_leaves_record_unchanged
              User.sample_limits User.sample_text User.sample_sha User.sample_user)
    as [Hname [Hpassword Hdigest]].
  split; [apply Hname; left; reflexivity|].
  split.
  { apply Hname. right. right. exists 32. split; [cbn; auto|].
    unfold User.allowed_char. cbn. intuition discriminate. }
  split; [apply Hpassword; left; reflexivity|].
  apply Hdigest. discriminate.
Defined.

Lemma setPassword_stores_iterated_hash_witness :
  let L := User.sample_limits in
  let Q := User.sample_text in
  let H := User.sample_sha in
  let value := [112; 97; 115; 115; 119; 111; 114; 100] in
  (kMinPasswordLength <= Z.of_nat (List.length value) <= kMaxPasswordLength)
  /\ @User.setPassword L Q H value User.sample_user 0
     = (true,
        User.mk (User.name_ User.sample_user)
                (Nat.iter (Z.to_nat 100000) Sha512_hash (toStdString value))
                (User.flags_ User.sample_user) (User.sessions_ User.sample_user),
        (0 + Z.to_nat 100000)%nat).
Proof.
  cbv zeta.
  assert (Hlen : @kMinPasswordLength User.sample_limits
                 <= Z.of_nat (List.length [112; 97; 115; 115; 119; 111; 114; 100])
                 <= @kMaxPasswordLength User.sample_limits)
    by (split; discriminate).
  split; [exact Hlen|].
  apply (@setPassword_stores_iterated_hash
           User.sample_limits User.sample_text User.sample_sha
           [112; 97; 115; 115; 119; 111; 114; 100] User.sample_user 0%nat).
  exact Hlen.
Defined.

End ConcreteInputs.

(** * Further properties of the credential record *)

Section UserFurther.
Context {limits : UserLimits} {qt : QtText} {sha : Sha512}.
Import User.

Lemma all_valid_chars_Forall (value : QString) :
  all_valid_chars value = true <-> Forall allowed_char value.
Proof.
  induction value as [|c rest IH]; cbn [all_valid_chars].
  - split; [constructor|reflexivity].
  - destruct (isValidUserNameChar c) eqn:Hc; cbn [negb].
    + rewrite IH. split.
      * intros H. constructor; [now apply isValidUserNameChar_allowed|exact H].
      * intros H. now inversion H.
    + split; [discriminate|]. intros H. inversion H as [|? ? Hbad _]; subst.
      apply isValidUserNameChar_allowed in Hbad. congruence.
Qed.

(** X1. [isValidName] accepts exactly the names that are not empty, not
    longer than the maximum, and made of letters, digits, dots,
    underscores and hyphens only. *)
Theorem isValidName_accepts_exactly (value : QString) :
  isValidName value = true
  <-> value <> []
      /\ Z.of_nat (List.length value) <= kMaxUserNameLength
      /\ Forall allowed_char value.
Proof.
  unfold isValidName.
  destruct (Z.leb_spec (Z.of_nat (List.length value)) 0) as [H0|H0];
    cbn [orb].
  - split; [discriminate|]. intros [Hne _]. destruct value; [congruence|].
    cbn [List.length] in H0. lia.
  - destruct (Z.gtb_spec (Z.of_nat (List.length value)) kMaxUserNameLength)
      as [Hm|Hm].
    + split; [discriminate|]. intros [_ [Hle _]]. lia.
    + rewrite all_valid_chars_Forall. split.
      * intros H. repeat split; [|lia|exact H].
        intros ->. cbn in H0. lia.
      * now intros [_ [_ H]].
Qed.

(** X2. Each setter touches its own field only: whether it accepts or
    rejects, [setName] leaves the digest, the flags and the session limit
    as they were, [setPassword] and [setPasswordHash] leave the name, the
    flags and the session limit, and [setFlags] and [setSessions] leave
    everything but the flags, respectively the session limit. *)
Theorem setters_keep_the_other_fields (u : User.t) (name password : QString)
        (digest : std_string) (value : Z) (calls : nat) :
  (password_hash_ (snd (setName name u)) = password_hash_ u
   /\ flags_ (snd (setName name u)) = flags_ u
   /\ sessions_ (snd (setName name u)) = sessions_ u)
  /\ (name_ (snd (fst (setPassword password u calls))) = name_ u
      /\ flags_ (snd (fst (setPassword password u calls))) = flags_ u
      /\ sessions_ (snd (fst (setPassword password u calls))) = sessions_ u)
  /\ (name_ (snd (setPasswordHash digest u)) = name_ u
      /\ flags_ (snd (setPasswordHash digest u)) = flags_ u
      /\ sessions_ (snd (setPasswordHash digest u)) = sessions_ u)
  /\ (name_ (setFlags value u) = name_ u
      /\ password_hash_ (setFlags value u) = password_hash_ u
      /\ sessions_ (setFlags value u) = sessions_ u)
  /\ (name_ (setSessions value u) = name_ u
      /\ password_hash_ (setSessions value u) = password_hash_ u
      /\ flags_ (setSessions value u) = flags_ u).
Proof.
  split; [|split; [|split; [|split]]].
  - unfold setName. destruct (isValidName name); cbn; auto.
  - unfold setPassword. destruct (isValidPassword password); cbn [negb];
      [destruct (createPasswordHash (toStdString password) calls)|]; cbn; auto.
  - unfold setPasswordHash. destruct (isValidPasswordHash digest); cbn; auto.
  - cbn. auto.
  - cbn. auto.
Qed.

Lemma iterated_hash_length (data : std_string) :
  (forall d, Z.of_nat (List.length (Sha512_hash d)) = kPasswordHashLength) ->
  Z.of_nat (List.length (Nat.iter (Z.to_nat kIterCount) Sha512_hash data))
  = kPasswordHashLength.
Proof.
  intros Hlen. unfold kIterCount.
  change 100000 with (Z.succ 99999).
  rewrite Z2Nat.inj_succ by discriminate.
  cbn [Nat.iter]. apply Hlen.
Qed.

Lemma setPassword_accepted (value : QString) (u : User.t) (calls : nat) :
  isValidPassword value = true ->
  setPassword value u calls
  = (true,
     User.mk (name_ u)
             (Nat.iter (Z.to_nat kIterCount) Sha512_hash (toStdString value))
             (flags_ u) (sessions_ u),
     (calls + Z.to_nat kIterCount)%nat).
Proof.
  intros H. unfold setPassword. rewrite H. cbn [negb].
  unfold createPasswordHash. rewrite createPasswordHash_loop_iter.
  now rewrite Z.sub_0_r.
Qed.

(** X3. When the hash function yields digests of the expected length, the
    digest that [setPassword] derives for an accepted password is accepted
    back by [setPasswordHash], and storing it that way gives the very
    record [setPassword] produced. *)
Theorem derived_digest_is_accepted_back (value : QString) (u : User.t) (calls : nat) :
  (forall d, Z.of_nat (List.length (Sha512_hash d)) = kPasswordHashLength) ->
  isValidPassword value = true ->
  let derived := snd (fst (setPassword value u calls)) in
  fst (fst (setPassword value u calls)) = true
  /\ setPasswordHash (password_hash_ derived) u = (true, derived).
Proof.
  intros Hlen Hok. cbv zeta. rewrite (setPassword_accepted value u calls Hok).
  cbn [fst snd password_hash_]. split; [reflexivity|].
  unfold setPasswordHash, isValidPasswordHash.
  rewrite (iterated_hash_length (toStdString value) Hlen).
  rewrite Z.eqb_refl. reflexivity.
Qed.

Lemma after_call_well_formed (u : User.t) (c : Call) :
  (forall d, Z.of_nat (List.length (Sha512_hash d)) = kPasswordHashLength) ->
  well_formed u -> well_formed (after_call u c).
Proof.
  intros Hlen [Hn Hh]. destruct c as [v|v|v|v|v]; cbn [after_call].
  - unfold setName. destruct (isValidName v) eqn:E; cbn; split; auto.
  - destruct (isValidPassword v) eqn:E.
    + rewrite (setPassword_accepted v u 0%nat E).
      unfold well_formed. cbn [fst snd name_ password_hash_].
      split; [exact Hn|].
      right. unfold isValidPasswordHash.
      rewrite (iterated_hash_length (toStdString v) Hlen).
      now rewrite Z.eqb_refl.
    + unfold setPassword. rewrite E. cbn. split; auto.
  - unfold setPasswordHash. destruct (isValidPasswordHash v) eqn:E; cbn;
      split; auto.
  - cbn. split; auto.
  - cbn. split; auto.
Qed.

(** X4. Whatever calls are made on a credential record, accepted or
    rejected and in any order, it stays well formed: its name is empty or
    valid, and its digest is empty or of the expected length (given a hash
    function that yields digests of that length). *)
Theorem record_stays_well_formed (u : User.t) (calls : list Call) :
  (forall d, Z.of_nat (List.length (Sha512_hash d)) = kPasswordHashLength) ->
  well_formed u -> well_formed (after_calls u calls).
Proof.
  intros Hlen. unfold after_calls. revert u.
  induction calls as [|c rest IH]; intros u Hu; cbn [fold_left]; [exact Hu|].
  apply IH. now apply after_call_well_formed.
Qed.

End UserFurther.

Section UserFurtherInputs.
Import User.

Lemma padded_hash_length (d : std_string) :
  Z.of_nat (List.length (padded_hash d)) = 64.
Proof.
  unfold padded_hash. rewrite length_firstn, length_app, repeat_length. lia.
Qed.

Lemma derived_digest_is_accepted_back_witness :
  let L := User.sample_limits in
  let Q := User.sample_text in
  let H := User.padded_sha in
  let value := [112; 97; 115; 115; 119; 111; 114; 100] in
  let derived := snd (fst (@setPassword L Q H value empty_user 0)) in
  ((forall d, Z.of_nat (List.length (@Sha512_hash H d)) = @kPasswordHashLength L)
   /\ @isValidPassword L value = true)
  /\ fst (fst (@setPassword L Q H value empty_user 0)) = true
  /\ @setPasswordHash L (password_hash_ derived) empty_user = (true, derived).
Proof.
  cbv zeta.
  assert (Hok : @isValidPassword User.sample_limits
                  [112; 97; 115; 115; 119; 111; 114; 100] = true)
    by (vm_compute; reflexivity).
  split; [split; [exact padded_hash_length|exact Hok]|].
  exact (@derived_digest_is_accepted_back
           User.sample_limits User.sample_text User.padded_sha
           [112; 97; 115; 115; 119; 111; 114; 100] empty_user 0%nat
           padded_hash_length Hok).
Defined.

Lemma record_stays_well_formed_witness :
  let L := User.sample_limits in
  let Q := User.sample_text in
  let H := User.padded_sha in
  let calls := [call_setName [98; 111; 98]; call_setName [];
                call_setPassword [112; 97; 115; 115; 119; 111; 114; 100];
                call_setPasswordHash [x01]; call_setFlags 3] in
  ((forall d, Z.of_nat (List.length (@Sha512_hash H d)) = @kPasswordHashLength L)
   /\ @well_formed L Q empty_user)
  /\ @well_formed L Q (@after_calls L Q H empty_user calls).
Proof.
  cbv zeta.
  assert (Hwf : @well_formed User.sample_limits User.sample_text empty_user)
    by (split; left; reflexivity).
  split; [split; [exact padded_hash_length|exact Hwf]|].
  exact (@record_stays_well_formed
           User.sample_limits User.sample_text User.padded_sha empty_user
           [call_setName [98; 111; 98]; call_setName [];
            call_setPassword [112; 97; 115; 115; 119; 111; 114; 100];
            call_setPasswordHash [x01]; call_setFlags 3]
           padded_hash_length Hwf).
Defined.

End UserFurtherInputs.

(** * Further properties of the session supervisor *)

Section HostFurther.
Import Host.

Ltac open_world w :=
  destruct w as [[ty sid tid st nc ic sp] pf [rn nx oc] [objs nh cs] tr].

Ltac step_with R :=
  match type of R with
  | ?m ?w = Ok ?a ?w' => rewrite (bind_ok m _ w w' a R)
  end.

Ltac heap_simpl := repeat (progress (cbn; rewrite ?Nat.eqb_refl)).

Ltac count_solve :=
  cbn [me platform timers heap trace state_ attach_timer_id_
       set_attach_timer_id_ set_state_ set_ipc_channel_ set_session_process_];
  unfold finished_count; rewrite ?filter_app, ?length_app; cbn;
  repeat split; lia.

Ltac proj_simpl :=
  cbn [me platform timers heap trace state_ attach_timer_id_ session_process_
       ipc_channel_ session_type_ session_id_ network_channel_
       set_attach_timer_id_ set_state_ set_session_id_ set_ipc_channel_
       set_session_process_ next_handle objects connections running
       next_timer_id outcomes].

(** ** The heap after a teardown *)

Lemma lookup_remove (h h' : handle) (objs : list (handle * Obj)) :
  lookup h (remove h' objs) = if Nat.eqb h h' then None else lookup h objs.
Proof.
  induction objs as [|[k o] rest IH]; cbn.
  - now destruct (Nat.eqb h h').
  - destruct (Nat.eqb_spec k h') as [->|Hk]; cbn.
    + rewrite IH. destruct (Nat.eqb_spec h h') as [->|Hh].
      * reflexivity.
      * destruct (Nat.eqb_spec h' h); [congruence|reflexivity].
    + destruct (Nat.eqb_spec k h) as [->|Hkh].
      * destruct (Nat.eqb_spec h h'); [congruence|reflexivity].
      * exact IH.
Qed.

Lemma release_session_objects (w w' : World) :
  release_session w = Ok tt w' ->
  (forall p, session_process_ (me w) = Some p -> object_at p w' = None)
  /\ (forall c, ipc_channel_ (me w) = Some c -> object_at c w' = None).
Proof.
  open_world w. unfold release_session, object_at. cbn.
  destruct sp as [p|]; destruct ic as [c|]; cbn;
    [destruct (Nat.eqb c p) eqn:E; cbn| | |];
    intros H; inversion H; subst; clear H; cbn;
    (split; intros x Hx; inversion Hx; subst; clear Hx);
    rewrite ?lookup_remove, ?Nat.eqb_refl; try reflexivity.
  - now rewrite E.
  - now destruct (Nat.eqb x c).
Qed.

(** ** The re-arming of the timer *)

Lemma startTimer_spec (w : World) :
  exists id w',
    startTimer w = Ok id w'
    /\ me w' = me w /\ platform w' = platform w /\ heap w' = heap w
    /\ trace w' = trace w ++ [StartTimer id]
    /\ (if timer_starts w
        then id = next_timer_id (timers w)
             /\ running (timers w') = id :: running (timers w)
        else id = 0 /\ running (timers w') = running (timers w)).
Proof.
  open_world w. unfold startTimer, timer_starts. cbn.
  destruct oc as [|[|] oc']; do 2 eexists; (split; [reflexivity|]); cbn;
    repeat split.
Qed.

(** [Host::dettachSession] past its guard: the handles are released and
    either the supervisor waits, detached, or it has stopped and said so
    once. *)
Lemma dettach_active_outcome (w : World) :
  exists w',
    dettach_active w = Ok tt w'
    /\ session_process_ (me w') = None
    /\ ipc_channel_ (me w') = None
    /\ session_type_ (me w') = session_type_ (me w)
    /\ platform w' = platform w
    /\ next_handle (heap w') = next_handle (heap w)
    /\ serverStart_count (trace w') = serverStart_count (trace w)
    /\ ((state_ (me w') = DetachedState
         /\ finished_count (trace w') = finished_count (trace w))
        \/ (state_ (me w') = StoppedState
            /\ attach_timer_id_ (me w') = 0
            /\ finished_count (trace w') = S (finished_count (trace w)))).
Proof.
  destruct (release_session_spec w)
    as [w1 [R [Hst [Hsp [Hic [Hty [_ [_ [Hpf [_ [Hnh Htr]]]]]]]]]]].
  assert (Hk : serverStart_count (trace w1) = serverStart_count (trace w)
               /\ finished_count (trace w1) = finished_count (trace w)).
  { rewrite Htr, serverStart_count_app, finished_count_app.
    destruct (kills_counts w) as [_ [-> ->]]. lia. }
  destruct Hk as [Hk1 Hk2].
  unfold dettach_active. step_with R.
  unfold bind at 1, gets at 1.
  destruct (is_file_transfer (session_type_ (me w1))).
  - destruct (finish_spec w1) as [w2 [F [Hme [Hpf2 [_ [_ [_ [Hhp Htr2]]]]]]]].
    exists w2. split; [exact F|]. rewrite Hme, Hhp, Htr2.
    rewrite serverStart_count_app, finished_count_app.
    destruct (finish_log_counts w1) as [_ [-> ->]]. cbn.
    repeat split; try assumption; try congruence; try lia.
    right. repeat split. lia.
  - destruct (startTimer_spec w1) as [id [w2 [T [Hme2 [Hpf2 [Hhp2 [Htr2 _]]]]]]].
    unfold rearm. step_with T.
    unfold bind at 1, modify at 1.
    destruct (id =? 0)%Z.
    + unfold bind at 1, qWarning, log. proj_simpl.
      match goal with
      | |- context [finish ?v] =>
          destruct (finish_spec v) as [w3 [F [Hme3 [Hpf3 [_ [_ [_ [Hhp3 Htr3]]]]]]]];
          pose proof (finish_log_counts v) as [_ [Hc1 Hc2]]
      end.
      exists w3. split; [exact F|]. rewrite Hme3, Hhp3, Htr3. proj_simpl.
      rewrite !serverStart_count_app, !finished_count_app, Hc1, Hc2.
      rewrite Hme2, Hhp2, Htr2, serverStart_count_app, finished_count_app.
      cbn. repeat split; try assumption; try congruence; try lia.
      * rewrite Hpf3. proj_simpl. congruence.
      * right. repeat split. lia.
    + eexists. split; [reflexivity|]. proj_simpl.
      rewrite Hme2, Hhp2, Htr2, serverStart_count_app, finished_count_app.
      cbn. repeat split; try assumption; try congruence; try lia.
      left. split; [exact Hst|lia].
Qed.

Lemma stop_active_outcome (w : World) :
  exists w',
    stop_active w = Ok tt w'
    /\ state_ (me w') = StoppedState
    /\ attach_timer_id_ (me w') = 0
    /\ session_process_ (me w') = None
    /\ ipc_channel_ (me w') = None
    /\ session_type_ (me w') = session_type_ (me w)
    /\ platform w' = platform w
    /\ next_handle (heap w') = next_handle (heap w)
    /\ serverStart_count (trace w') = serverStart_count (trace w)
    /\ (finished_count (trace w) < finished_count (trace w')
        <= finished_count (trace w) + 2)%nat.
Proof.
  destruct (dettach_active_outcome w)
    as [w1 [D [Hsp [Hic [Hty [Hpf [Hnh [Hss Hcase]]]]]]]].
  destruct (finish_spec w1) as [w2 [F [Hme [Hpf2 [_ [_ [_ [Hhp Htr]]]]]]]].
  exists w2. unfold stop_active. step_with D.
  split; [exact F|]. rewrite Hme, Hhp, Htr.
  rewrite serverStart_count_app, finished_count_app.
  destruct (finish_log_counts w1) as [_ [-> ->]]. cbn.
  repeat split; try assumption; try congruence;
    destruct Hcase as [[_ Hf]|[_ [_ Hf]]]; lia.
Qed.

(** [Host::stop] in full. *)
Lemma stop_outcome (w : World) :
  exists w',
    stop w = Ok tt w'
    /\ state_ (me w') = StoppedState
    /\ session_type_ (me w') = session_type_ (me w)
    /\ platform w' = platform w
    /\ next_handle (heap w') = next_handle (heap w)
    /\ serverStart_count (trace w') = serverStart_count (trace w)
    /\ (state_ (me w) = StoppedState -> w' = w)
    /\ (state_ (me w) <> StoppedState ->
        attach_timer_id_ (me w') = 0
        /\ (finished_count (trace w) < finished_count (trace w')
            <= finished_count (trace w) + 2)%nat)
    /\ (is_active (state_ (me w)) = true ->
        session_process_ (me w') = None /\ ipc_channel_ (me w') = None).
Proof.
  rewrite stop_cases. destruct (state_ (me w)) eqn:E.
  - exists w. repeat split; try assumption; try congruence; discriminate.
  - destruct (stop_active_outcome w)
      as [w' [S1 [H1 [H2 [H3 [H4 [H5 [H6 [H7 [H8 H9]]]]]]]]]].
    exists w'. repeat split; try assumption; try discriminate; lia.
  - destruct (finish_spec w) as [w' [F [Hme [Hpf [_ [_ [_ [Hhp Htr]]]]]]]].
    exists w'. split; [exact F|]. rewrite Hme, Hhp, Htr.
    rewrite serverStart_count_app, finished_count_app.
    destruct (finish_log_counts w) as [_ [-> ->]]. cbn.
    repeat split; try assumption; try congruence; try discriminate; lia.
  - destruct (stop_active_outcome w)
      as [w' [S1 [H1 [H2 [H3 [H4 [H5 [H6 [H7 [H8 H9]]]]]]]]]].
    exists w'. repeat split; try assumption; try discriminate; lia.
Qed.

Lemma dettach_active_rearms (w : World) :
  is_file_transfer (session_type_ (me w)) = false ->
  timer_starts w = true ->
  next_timer_id (timers w) <> 0 ->
  exists w' w1,
    dettach_active w = Ok tt w'
    /\ release_session w = Ok tt w1
    /\ heap w' = heap w1
    /\ me w' = set_attach_timer_id_ (next_timer_id (timers w)) (me w1)
    /\ state_ (me w') = DetachedState
    /\ running (timers w') = next_timer_id (timers w) :: running (timers w)
    /\ trace w' = trace w ++ kills w ++ [StartTimer (next_timer_id (timers w))].
Proof.
  intros Hty Hts Hnz.
  destruct (release_session_spec w)
    as [w1 [R [Hst [Hsp [Hic [Hty1 [_ [_ [Hpf [Htm [Hnh Htr]]]]]]]]]]].
  destruct (startTimer_spec w1) as [id [w2 [T [Hme2 [Hpf2 [Hhp2 [Htr2 Hid]]]]]]].
  assert (Hts1 : timer_starts w1 = true) by (unfold timer_starts; now rewrite Htm).
  rewrite Hts1, Htm in Hid. destruct Hid as [-> Hrun].
  unfold dettach_active. step_with R.
  unfold bind at 1, gets at 1. rewrite Hty1, Hty.
  unfold rearm. step_with T.
  unfold bind at 1, modify at 1.
  destruct (Z.eqb_spec (next_timer_id (timers w)) 0) as [E|_]; [contradiction|].
  eexists. exists w1. split; [reflexivity|]. proj_simpl.
  rewrite Hme2, Hhp2, Htr2, Htr, <- app_assoc.
  repeat split; try assumption.
Qed.

Lemma dettach_active_arming_fails (w : World) :
  is_file_transfer (session_type_ (me w)) = false ->
  timer_starts w = false ->
  exists w' w1,
    dettach_active w = Ok tt w'
    /\ release_session w = Ok tt w1
    /\ heap w' = heap w1
    /\ state_ (me w') = StoppedState
    /\ attach_timer_id_ (me w') = 0
    /\ session_process_ (me w') = None
    /\ ipc_channel_ (me w') = None
    /\ running (timers w') = running (timers w)
    /\ trace w' = trace w ++ kills w
                 ++ [StartTimer 0; Warning "Could not start the timer"; Finished].
Proof.
  intros Hty Hts.
  destruct (release_session_spec w)
    as [w1 [R [Hst [Hsp [Hic [Hty1 [_ [_ [Hpf [Htm [Hnh Htr]]]]]]]]]]].
  destruct (startTimer_spec w1) as [id [w2 [T [Hme2 [Hpf2 [Hhp2 [Htr2 Hid]]]]]]].
  assert (Hts1 : timer_starts w1 = false) by (unfold timer_starts; now rewrite Htm).
  rewrite Hts1, Htm in Hid. destruct Hid as [-> Hrun].
  unfold dettach_active. step_with R.
  unfold bind at 1, gets at 1. rewrite Hty1, Hty.
  unfold rearm. step_with T.
  unfold bind at 1, modify at 1. cbn [Z.eqb].
  unfold bind at 1, qWarning, log. proj_simpl.
  match goal with
  | |- context [finish ?v] =>
      destruct (finish_spec v) as [w3 [F [Hme3 [_ [Hrun3 [_ [_ [Hhp3 Htr3]]]]]]]]
  end.
  exists w3, w1. split; [exact F|]. split; [exact R|].
  rewrite Hme3, Hhp3, Htr3, Hrun3.
  unfold finish_log, finish_running. proj_simpl. cbn [Z.eqb].
  rewrite Hme2, Hhp2, Htr2, Htr, Hrun, Hsp, Hic.
  repeat split. now rewrite <- !app_assoc.
Qed.

(** ** What [stop] and [dettachSession] guarantee *)

(** X5. [stop] always returns with the supervisor stopped, and a further
    [stop] then changes nothing and notifies nothing.  Called in the
    stopped state it does nothing; otherwise it forgets the timer and
    emits [finished] at least once and at most twice; called while
    starting or attached it leaves no worker and no IPC channel owned. *)
Theorem stop_settles (w : World) :
  exists w',
    stop w = Ok tt w'
    /\ state_ (me w') = StoppedState
    /\ stop w' = Ok tt w'
    /\ (state_ (me w) = StoppedState -> w' = w)
    /\ (state_ (me w) <> StoppedState ->
        attach_timer_id_ (me w') = 0
        /\ (finished_count (trace w) < finished_count (trace w')
            <= finished_count (trace w) + 2)%nat)
    /\ (is_active (state_ (me w)) = true ->
        session_process_ (me w') = None /\ ipc_channel_ (me w') = None).
Proof.
  destruct (stop_outcome w) as [w' [S1 [Hst [_ [_ [_ [_ [H1 [H2 H3]]]]]]]]].
  exists w'. split; [exact S1|]. split; [exact Hst|].
  split; [rewrite stop_cases, Hst; reflexivity|].
  split; [exact H1|]. split; [exact H2|exact H3].
Qed.

(** X6. [stop] emits [finished] exactly once when it is called in the
    detached state, and when it is called while starting or attached for
    a session other than file transfer whose timer can be started; the
    timer that the nested [dettachSession] arms is killed again before
    [stop] returns. *)
Theorem stop_notifies_once (w : World) :
  state_ (me w) = DetachedState
  \/ (is_active (state_ (me w)) = true
      /\ is_file_transfer (session_type_ (me w)) = false
      /\ timer_starts w = true
      /\ next_timer_id (timers w) <> 0) ->
  exists w',
    stop w = Ok tt w'
    /\ state_ (me w') = StoppedState
    /\ attach_timer_id_ (me w') = 0
    /\ finished_count (trace w') = S (finished_count (trace w))
    /\ (state_ (me w) <> DetachedState ->
        ~ In (next_timer_id (timers w)) (running (timers w'))).
Proof.
  intros [Hdet|[Hact [Hty [Hts Hnz]]]].
  - rewrite stop_cases, Hdet.
    destruct (finish_spec w) as [w' [F [Hme [_ [_ [_ [_ [_ Htr]]]]]]]].
    exists w'. split; [exact F|]. rewrite Hme, Htr, finished_count_app.
    destruct (finish_log_counts w) as [_ [_ ->]].
    repeat split; [lia|congruence].
  - rewrite stop_cases.
    replace (match state_ (me w) with
             | StoppedState => Ok tt w
             | DetachedState => finish w
             | _ => stop_active w
             end) with (stop_active w)
      by (destruct (state_ (me w)); cbn in Hact; congruence).
    destruct (dettach_active_rearms w Hty Hts Hnz)
      as [w1 [v [D [_ [_ [Hme1 [_ [Hrun1 Htr1]]]]]]]].
    destruct (finish_spec w1) as [w' [F [Hme [_ [Hrun [_ [_ [_ Htr]]]]]]]].
    exists w'. unfold stop_active. step_with D.
    split; [exact F|]. rewrite Hme, Htr, Htr1, Hrun.
    rewrite !finished_count_app.
    destruct (kills_counts w) as [_ [_ ->]].
    destruct (finish_log_counts w1) as [_ [_ ->]].
    unfold finish_running. rewrite Hme1, Hrun1. proj_simpl.
    destruct (Z.eqb_spec (next_timer_id (timers w)) 0) as [E|_]; [contradiction|].
    repeat split; [cbn; lia|].
    intros _ Hin. apply filter_In in Hin. destruct Hin as [_ Hin].
    now rewrite Z.eqb_refl in Hin.
Qed.

(** X7. A detach of a session other than file transfer, while starting or
    attached, never leaves the supervisor as it was: the worker and the
    IPC channel are destroyed and forgotten, and then either a fresh timer
    is armed and remembered and the supervisor waits detached with
    nothing notified, or - the timer could not be started - the supervisor
    is stopped, with one [finished] and no timer remembered. *)
Theorem detach_rearms_or_stops (w : World) :
  is_active (state_ (me w)) = true ->
  is_file_transfer (session_type_ (me w)) = false ->
  next_timer_id (timers w) <> 0 ->
  exists w',
    dettachSession w = Ok tt w'
    /\ session_process_ (me w') = None
    /\ ipc_channel_ (me w') = None
    /\ (forall p, session_process_ (me w) = Some p -> object_at p w' = None)
    /\ (forall c, ipc_channel_ (me w) = Some c -> object_at c w' = None)
    /\ if timer_starts w
       then state_ (me w') = DetachedState
            /\ attach_timer_id_ (me w') = next_timer_id (timers w)
            /\ running (timers w') = next_timer_id (timers w) :: running (timers w)
            /\ finished_count (trace w') = finished_count (trace w)
            /\ startTimer_count (trace w') = S (startTimer_count (trace w))
       else state_ (me w') = StoppedState
            /\ attach_timer_id_ (me w') = 0
            /\ finished_count (trace w') = S (finished_count (trace w)).
Proof.
  intros Hact Hty Hnz.
  rewrite dettachSession_cases.
  replace (match state_ (me w) with
           | StoppedState | DetachedState => Ok tt w
           | _ => dettach_active w
           end) with (dettach_active w)
    by (destruct (state_ (me w)); cbn in Hact; congruence).
  destruct (release_session_spec w) as [v [Rv [Hdet [Hsp [Hic _]]]]].
  destruct (timer_starts w) eqn:Hts.
  - destruct (dettach_active_rearms w Hty Hts Hnz)
      as [w' [w1 [D [R [Hhp [Hme [Hst [Hrun Htr]]]]]]]].
    rewrite R in Rv. inversion Rv; subst v; clear Rv.
    destruct (release_session_objects w w1 R) as [Hp Hc].
    exists w'. split; [exact D|]. unfold object_at in *. rewrite Hhp, Hme, Htr.
    rewrite !finished_count_app, !startTimer_count_app.
    destruct (kills_counts w) as [-> [_ ->]]. proj_simpl.
    repeat split; try assumption; try (cbn; lia).
  - destruct (dettach_active_arming_fails w Hty Hts)
      as [w' [w1 [D [R [Hhp [Hst [Hid [Hsp' [Hic' [_ Htr]]]]]]]]]].
    destruct (release_session_objects w w1 R) as [Hp Hc].
    exists w'. split; [exact D|]. unfold object_at in *. rewrite Hhp, Htr.
    rewrite !finished_count_app.
    destruct (kills_counts w) as [_ [_ ->]].
    repeat split; try assumption; try (cbn; lia).
Qed.

(** ** [start] *)

(** [Host::start] up to the call it ends with: [attachSession] when the
    timer was started, [stop] when it was not. *)
Lemma start_with_timer (w : World) :
  timer_starts w = true ->
  next_timer_id (timers w) <> 0 ->
  exists w1,
    start w = attachSession (active_console_session (platform w)) w1
    /\ me w1 = set_attach_timer_id_ (next_timer_id (timers w))
                 (set_state_ StartingState (me w))
    /\ platform w1 = platform w
    /\ objects (heap w1) = objects (heap w)
    /\ next_handle (heap w1) = next_handle (heap w)
    /\ running (timers w1) = next_timer_id (timers w) :: running (timers w)
    /\ startTimer_count (trace w1) = S (startTimer_count (trace w))
    /\ serverStart_count (trace w1) = serverStart_count (trace w)
    /\ finished_count (trace w1) = finished_count (trace w).
Proof.
  open_world w. unfold start, timer_starts. proj_simpl. intros Hts Hnz.
  remember attachSession as A.
  destruct nc as [n|]; destruct oc as [|[|] oc']; try discriminate Hts; cbn;
    destruct (Z.eqb_spec nx 0) as [E|_]; try contradiction;
    (eexists; split; [reflexivity|]); proj_simpl;
    rewrite ?startTimer_count_app, ?serverStart_count_app, ?finished_count_app;
    cbn; repeat split; lia.
Qed.

Lemma start_without_timer (w : World) :
  timer_starts w = false ->
  exists w1,
    start w = stop w1
    /\ me w1 = set_attach_timer_id_ 0 (set_state_ StartingState (me w))
    /\ platform w1 = platform w
    /\ next_handle (heap w1) = next_handle (heap w)
    /\ serverStart_count (trace w1) = serverStart_count (trace w)
    /\ finished_count (trace w1) = finished_count (trace w).
Proof.
  open_world w. unfold start, timer_starts. proj_simpl. intros Hts.
  remember stop as K.
  destruct nc as [n|]; destruct oc as [|[|] oc']; try discriminate Hts; cbn;
    (eexists; split; [reflexivity|]); proj_simpl;
    rewrite ?startTimer_count_app, ?serverStart_count_app, ?finished_count_app;
    cbn; repeat split; lia.
Qed.

(** X8. When the timer can be started, [start] arms exactly one timer,
    remembers it, and begins exactly one attach for the active console
    session: the state is starting, one listener is created and started,
    and nothing is notified. *)
Theorem start_arms_timer_and_attaches (w : World) :
  timer_starts w = true ->
  next_timer_id (timers w) <> 0 ->
  exists w',
    start w = Ok tt w'
    /\ state_ (me w') = StartingState
    /\ session_id_ (me w') = active_console_session (platform w)
    /\ attach_timer_id_ (me w') = next_timer_id (timers w)
    /\ running (timers w') = next_timer_id (timers w) :: running (timers w)
    /\ startTimer_count (trace w') = S (startTimer_count (trace w))
    /\ serverStart_count (trace w') = S (serverStart_count (trace w))
    /\ finished_count (trace w') = finished_count (trace w)
    /\ objects (heap w')
       = (next_handle (heap w), OIpcServer false) :: objects (heap w).
Proof.
  intros Hts Hnz.
  destruct (start_with_timer w Hts Hnz)
    as [w1 [E [Hme [Hpf [Hob [Hnh [Hrun [Hc1 [Hc2 Hc3]]]]]]]]].
  rewrite E.
  destruct (attachSession_spec (active_console_session (platform w)) w1)
    as [w' [A [Hme' [_ [Htm' [Hob' [_ Htr']]]]]]].
  exists w'. split; [exact A|].
  rewrite Hme', Hme, Htm', Hob', Htr', Hob, Hnh.
  rewrite startTimer_count_app, serverStart_count_app, finished_count_app.
  proj_simpl. cbn. repeat split; try assumption; lia.
Qed.

(** X9. When the timer cannot be started, [start] attempts no attach: it
    warns and stops at once - no listener is created or started, no timer
    is remembered, [finished] is emitted, and the supervisor is stopped. *)
Theorem start_without_timer_stops (w : World) :
  timer_starts w = false ->
  exists w',
    start w = Ok tt w'
    /\ state_ (me w') = StoppedState
    /\ attach_timer_id_ (me w') = 0
    /\ serverStart_count (trace w') = serverStart_count (trace w)
    /\ next_handle (heap w') = next_handle (heap w)
    /\ (finished_count (trace w) < finished_count (trace w')
        <= finished_count (trace w) + 2)%nat.
Proof.
  intros Hts.
  destruct (start_without_timer w Hts) as [w1 [E [Hme [Hpf [Hnh [Hc2 Hc3]]]]]].
  rewrite E.
  destruct (stop_outcome w1) as [w' [S1 [Hst [_ [_ [Hnh' [Hss [_ [Hne _]]]]]]]]].
  exists w'. split; [exact S1|]. split; [exact Hst|].
  destruct Hne as [Hid Hfc]; [rewrite Hme; discriminate|].
  repeat split; try assumption; try congruence; lia.
Qed.

(** ** Notifications that are ignored *)

(** X10. The guards of the slots: a console notification is ignored while
    starting or stopped, and whatever the state when it is neither a
    connect nor a disconnect; a detach is ignored while detached or
    stopped; the expiry of a timer other than the remembered one is
    ignored; and a stopped supervisor ignores [stop] and every timer.  In
    each case the world is left exactly as it was. *)
Theorem ignored_notifications (w : World) :
  (state_ (me w) = StartingState \/ state_ (me w) = StoppedState ->
   forall event session_id, sessionChanged event session_id w = Ok tt w)
  /\ (forall event session_id,
         event <> WTS_CONSOLE_CONNECT -> event <> WTS_CONSOLE_DISCONNECT ->
         sessionChanged event session_id w = Ok tt w)
  /\ (state_ (me w) = DetachedState \/ state_ (me w) = StoppedState ->
      dettachSession w = Ok tt w
      /\ forall session_id,
          sessionChanged WTS_CONSOLE_DISCONNECT session_id w = Ok tt w)
  /\ (forall timerId, timerId <> attach_timer_id_ (me w) ->
                      timerEvent timerId w = Ok tt w)
  /\ (state_ (me w) = StoppedState ->
      stop w = Ok tt w /\ forall timerId, timerEvent timerId w = Ok tt w).
Proof.
  split; [|split; [|split; [|split]]].
  - intros H event session_id. unfold sessionChanged, bind, gets.
    destruct H as [-> | ->]; reflexivity.
  - intros event session_id H1 H2. unfold sessionChanged, bind, gets.
    destruct (negb _ && negb _); [reflexivity|].
    destruct (Z.eqb_spec event WTS_CONSOLE_CONNECT); [contradiction|].
    destruct (Z.eqb_spec event WTS_CONSOLE_DISCONNECT); [contradiction|].
    reflexivity.
  - intros H.
    assert (D : dettachSession w = Ok tt w)
      by (rewrite dettachSession_cases; destruct H as [-> | ->]; reflexivity).
    split; [exact D|]. intros session_id.
    unfold sessionChanged, bind at 1, gets at 1.
    destruct H as [-> | ->]; cbn [State_eqb negb andb]; [|reflexivity].
    cbn [WTS_CONSOLE_DISCONNECT WTS_CONSOLE_CONNECT Z.eqb Pos.eqb]. exact D.
  - intros timerId H. unfold timerEvent, bind, gets.
    destruct (Z.eqb_spec timerId (attach_timer_id_ (me w))); [contradiction|].
    reflexivity.
  - intros H.
    assert (S1 : stop w = Ok tt w) by (rewrite stop_cases, H; reflexivity).
    split; [exact S1|]. intros timerId. unfold timerEvent, bind, gets.
    destruct (timerId =? attach_timer_id_ (me w))%Z; [exact S1|reflexivity].
Qed.

(** ** The two listener notifications *)

(** X11. Whenever [ipcNewConnection] returns, the attach is complete: the
    channel it was given is not null and is now the supervisor's, the
    network channel is alive, the state is attached, the remembered timer
    has been killed and forgotten, and exactly one read has been asked of
    each endpoint, the IPC channel first.  With assertions compiled in, a
    timer was remembered when the connection arrived. *)
Theorem completed_attach (channel : QPointer) (w w' : World) :
  ipcNewConnection channel w = Ok tt w' ->
  exists c n,
    channel = Some c
    /\ network_channel_ (me w) = Some n
    /\ (qt_no_debug (platform w) = false -> attach_timer_id_ (me w) <> 0)
    /\ state_ (me w') = AttachedState
    /\ ipc_channel_ (me w') = Some c
    /\ attach_timer_id_ (me w') = 0
    /\ session_process_ (me w') = session_process_ (me w)
    /\ ~ In (attach_timer_id_ (me w)) (running (timers w'))
    /\ trace w' = trace w ++ [KillTimer (attach_timer_id_ (me w)); IpcRead c; NetRead n].
Proof.
  open_world w. destruct pf as [nd acs dir]. unfold ipcNewConnection.
  destruct channel as [c|]; destruct nc as [n|]; destruct nd;
    destruct (Z.eqb_spec tid 0) as [E|E]; cbn;
    try (destruct (Z.eqb_spec tid 0); [|contradiction]); cbn;
    try (destruct (Z.eqb_spec tid 0); [contradiction|]); cbn;
    intros H; inversion H; subst; clear H;
    exists c, n; proj_simpl; rewrite <- ?app_assoc;
    (repeat split; try discriminate; try congruence);
    intros Hin; apply filter_In in Hin; destruct Hin as [_ Hin];
    rewrite Z.eqb_refl in Hin; discriminate.
Qed.

(** X12. With assertions compiled in, the listener's started notification
    is only accepted while starting and with no worker owned: otherwise
    the process ends at the assertion, before any worker is created or
    anything else changes. *)
Theorem listener_started_out_of_turn_aborts (channel_id : string) (w : World) :
  qt_no_debug (platform w) = false ->
  state_ (me w) <> StartingState \/ session_process_ (me w) <> None ->
  exists msg, ipcServerStarted channel_id w = Fatal msg w.
Proof.
  open_world w. destruct pf as [nd acs dir]. proj_simpl. cbn [qt_no_debug].
  intros -> H. unfold ipcServerStarted.
  destruct st; cbn; try (eexists; reflexivity);
    destruct sp as [p|]; cbn; try (eexists; reflexivity).
  destruct H as [H|H]; congruence.
Qed.

(** X13. With assertions compiled out, the listener's started
    notification launches a worker even when the supervisor already owns
    one: the supervisor then points to the new worker, and the previous
    one is neither killed nor deleted - it stays as it was, no longer
    referred to. *)
Theorem second_worker_replaces_first (channel_id : string) (w : World) (p : handle) :
  qt_no_debug (platform w) = true ->
  session_process_ (me w) = Some p ->
  p <> next_handle (heap w) ->
  is_known (session_type_ (me w)) = true ->
  exists w' config,
    ipcServerStarted channel_id w = Ok tt w'
    /\ session_process_ (me w') = Some (next_handle (heap w))
    /\ object_at p w' = object_at p w
    /\ state_ (me w') = state_ (me w)
    /\ trace w' = trace w ++ [ProcessStart (next_handle (heap w)) config].
Proof.
  open_world w. destruct pf as [nd acs dir]. proj_simpl. cbn [qt_no_debug].
  intros -> -> Hp Hty.
  assert (E : Nat.eqb nh p = false) by (apply Nat.eqb_neq; congruence).
  unfold ipcServerStarted, HostProcess_start, process_config, object_at.
  destruct ty; try discriminate Hty; heap_simpl;
    do 2 eexists; (split; [reflexivity|]); heap_simpl; rewrite E;
    repeat split.
Qed.

(** ** The first attach *)

(** X14. From construction to the attached state: for every known session
    kind, on any platform and with any channel id, when the first timer
    starts, the notifications [start], listener started, worker connected
    can be delivered in that order, and leave the supervisor attached to
    worker 2 and channel 3 with no timer running or remembered, the worker
    launched for the active console session, one read asked of each
    endpoint, and nothing notified. *)
Theorem first_attach_completes (ty : SessionType) (pf : Platform)
        (channel_id : string) (rest : list bool) :
  is_known ty = true ->
  let w0 := new_host ty pf (true :: rest) in
  feasible (attach_events channel_id) w0 = true
  /\ exists w config account token,
      run (attach_events channel_id) w0 = Ok tt w
      /\ state_ (me w) = AttachedState
      /\ session_process_ (me w) = Some 2%nat
      /\ ipc_channel_ (me w) = Some 3%nat
      /\ attach_timer_id_ (me w) = 0
      /\ running (timers w) = []
      /\ expected_launch ty = Some (account, token)
      /\ proc_session_id config = Some (active_console_session pf)
      /\ proc_account config = Some account
      /\ proc_arguments config
         = ["--channel_id"; channel_id; "--session_type"; token]%string
      /\ trace w = [StartTimer 1; ServerStart 1%nat; ProcessStart 2%nat config;
                    KillTimer 1; IpcRead 3%nat; NetRead 0%nat].
Proof.
  intros Hty. destruct pf as [nd acs dir].
  destruct ty; try discriminate Hty; destruct nd; cbv zeta;
    (split; [vm_compute; reflexivity|]);
    do 4 eexists; (split; [vm_compute; reflexivity|]); repeat split;
    reflexivity.
Qed.

(** ** What a notification can do *)

Lemma core_kept_refl (w : World) : core_kept w w.
Proof. unfold core_kept. auto. Qed.

Lemma core_then_outcome (w w1 w' : World) :
  core_kept w w1 -> outcome w1 w' -> outcome w w'.
Proof.
  unfold outcome, core_kept. intros [H1 [H2 H3]] H.
  rewrite H3 in H. rewrite H1, H2 in H. exact H.
Qed.

Lemma outcome_then_core (w w1 w' : World) :
  outcome w w1 -> core_kept w1 w' -> outcome w w'.
Proof.
  unfold outcome, core_kept. intros H [H1 [H2 H3]].
  rewrite H1, H2, H3. exact H.
Qed.

Lemma outcome_stop (w w' : World) : stop w = Ok tt w' -> outcome w w'.
Proof.
  intros S1.
  destruct (stop_outcome w) as [v [S2 [Hst [_ [_ [_ [_ [H1 [H2 _]]]]]]]]].
  rewrite S1 in S2. inversion S2; subst v; clear S2.
  destruct (state_ (me w)) eqn:E.
  - rewrite (H1 eq_refl). left. apply core_kept_refl.
  - destruct H2 as [Hid Hfc]; [discriminate|]. do 4 right. repeat split; auto; lia.
  - destruct H2 as [Hid Hfc]; [discriminate|]. do 4 right. repeat split; auto; lia.
  - destruct H2 as [Hid Hfc]; [discriminate|]. do 4 right. repeat split; auto; lia.
Qed.

Lemma outcome_dettachSession (w w' : World) :
  dettachSession w = Ok tt w' -> outcome w w'.
Proof.
  rewrite dettachSession_cases. intros D.
  assert (A : dettach_active w = Ok tt w' -> outcome w w').
  { intros Da.
    destruct (dettach_active_outcome w) as [v [D2 [_ [_ [_ [_ [_ [_ Hc]]]]]]]].
    rewrite Da in D2. inversion D2; subst v; clear D2.
    destruct Hc as [[Hst Hfc]|[Hst [Hid Hfc]]].
    - right. left. auto.
    - do 4 right. repeat split; auto. lia. }
  destruct (state_ (me w)); auto; inversion D; subst; left; apply core_kept_refl.
Qed.

Lemma outcome_attachSession (session_id : Z) (w w' : World) :
  attachSession session_id w = Ok tt w' -> outcome w w'.
Proof.
  intros A. destruct (attachSession_spec session_id w) as [v [A2 [Hme [_ [_ [_ [_ Htr]]]]]]].
  rewrite A in A2. inversion A2; subst v; clear A2.
  right. right. left. rewrite Hme, Htr, finished_count_app. cbn. split; [reflexivity|lia].
Qed.

(** [Host::start] ends with [stop] called while starting, or with
    [attachSession]. *)
Lemma start_ends (w : World) :
  exists w1,
    finished_count (trace w1) = finished_count (trace w)
    /\ ((start w = stop w1 /\ state_ (me w1) = StartingState)
        \/ exists session_id, start w = attachSession session_id w1).
Proof.
  open_world w. unfold start.
  remember stop as K. remember attachSession as A.
  destruct nc as [n|]; destruct oc as [|[|] oc']; cbn;
    try (destruct (Z.eqb_spec nx 0) as [E|E]; cbn);
    eexists;
    (split; [|first [left; split; [reflexivity|reflexivity]
                    |right; eexists; reflexivity]]);
    proj_simpl; rewrite ?finished_count_app; unfold finished_count; cbn; lia.
Qed.

Lemma outcome_start (w w' : World) : start w = Ok tt w' -> outcome w w'.
Proof.
  intros S1. destruct (start_ends w) as [w1 [Hfc [[E Hst]|[session_id E]]]];
    rewrite E in S1.
  - destruct (stop_outcome w1) as [v [S2 [Hst' [_ [_ [_ [_ [_ [H2 _]]]]]]]]].
    rewrite S1 in S2. inversion S2; subst v; clear S2.
    destruct H2 as [Hid Hf]; [rewrite Hst; discriminate|].
    do 4 right. repeat split; auto. lia.
  - destruct (attachSession_spec session_id w1)
      as [v [A2 [Hme [_ [_ [_ [_ Htr]]]]]]].
    rewrite S1 in A2. inversion A2; subst v; clear A2.
    right. right. left. rewrite Hme, Htr, finished_count_app. cbn.
    split; [reflexivity|lia].
Qed.

Lemma bind_inv {A B} (m : M A) (k : A -> M B) (w w' : World) (b : B) :
  bind m k w = Ok b w' -> exists a w1, m w = Ok a w1 /\ k a w1 = Ok b w'.
Proof.
  unfold bind. destruct (m w) as [a w1| |]; try discriminate. eauto.
Qed.

Lemma core_kept_modify_obj (h : handle) (f : Obj -> Obj) (w w' : World) :
  modify_obj h f w = Ok tt w' -> core_kept w w'.
Proof. intros H. inversion H; subst. unfold core_kept. cbn. auto. Qed.

Lemma core_kept_destroy (h : handle) (w w' : World) :
  destroy h w = Ok tt w' -> core_kept w w'.
Proof. intros H. inversion H; subst. unfold core_kept. cbn. auto. Qed.

Lemma core_kept_trans (w w1 w' : World) :
  core_kept w w1 -> core_kept w1 w' -> core_kept w w'.
Proof. unfold core_kept. intros [? [? ?]] [? [? ?]]. repeat split; congruence. Qed.

Lemma outcome_sessionChanged (event session_id : Z) (w w' : World) :
  sessionChanged event session_id w = Ok tt w' -> outcome w w'.
Proof.
  unfold sessionChanged, bind at 1, gets at 1.
  destruct (negb _ && negb _).
  - intros H. inversion H; subst. left. apply core_kept_refl.
  - destruct (event =? WTS_CONSOLE_CONNECT)%Z; [apply outcome_attachSession|].
    destruct (event =? WTS_CONSOLE_DISCONNECT)%Z; [apply outcome_dettachSession|].
    intros H. inversion H; subst. left. apply core_kept_refl.
Qed.

Lemma outcome_timerEvent (timerId : Z) (w w' : World) :
  timerEvent timerId w = Ok tt w' -> outcome w w'.
Proof.
  unfold timerEvent, bind at 1, gets at 1.
  destruct (timerId =? _)%Z; [apply outcome_stop|].
  intros H. inversion H; subst. left. apply core_kept_refl.
Qed.

Lemma core_kept_ipcServerStarted (channel_id : string) (w w' : World) :
  ipcServerStarted channel_id w = Ok tt w' -> core_kept w w'.
Proof.
  open_world w. destruct pf as [nd acs dir].
  unfold ipcServerStarted, HostProcess_start, process_config, core_kept.
  destruct nd, st, sp as [p|], ty; heap_simpl;
    intros H; inversion H; subst; clear H; count_solve.
Qed.

Lemma ipcNewConnection_post (channel : QPointer) (w w' : World) :
  ipcNewConnection channel w = Ok tt w' ->
  state_ (me w') = AttachedState
  /\ attach_timer_id_ (me w') = 0
  /\ finished_count (trace w') = finished_count (trace w).
Proof.
  open_world w. destruct pf as [nd acs dir]. unfold ipcNewConnection.
  destruct channel as [c|]; destruct nc as [n|]; destruct nd;
    destruct (Z.eqb_spec tid 0) as [E|E]; cbn;
    try (destruct (Z.eqb_spec tid 0); [|contradiction]); cbn;
    try (destruct (Z.eqb_spec tid 0); [contradiction|]); cbn;
    intros H; inversion H; subst; clear H; count_solve.
Qed.

Lemma core_kept_relay (ev : Event) (w w' : World) :
  match ev with
  | Network_messageWritten _ | Network_messageReceived _ _
  | Channel_messageWritten _ | Channel_messageReceived _ _ => True
  | _ => False
  end ->
  deliver ev w = Ok tt w' -> core_kept w w'.
Proof.
  open_world w. unfold core_kept.
  destruct ev; try contradiction; intros _; cbn;
    try destruct ic as [c'|]; try destruct nc as [n'|]; cbn;
    intros H; inversion H; subst; clear H; count_solve.
Qed.

Lemma stopped_ignores_repeated_stop (k : nat) (w : World) :
  state_ (me w) = StoppedState -> repeat_m k stop w = Ok tt w.
Proof.
  intros H. induction k as [|k IH]; [reflexivity|].
  cbn [repeat_m]. unfold bind. rewrite stop_cases, H. exact IH.
Qed.

Lemma outcome_repeat_stop (k : nat) (w w' : World) :
  repeat_m k stop w = Ok tt w' -> outcome w w'.
Proof.
  destruct k as [|k]; cbn [repeat_m].
  - intros H. inversion H; subst. left. apply core_kept_refl.
  - intros H. apply bind_inv in H. destruct H as [[] [w1 [S1 R]]].
    destruct (stop_outcome w) as [v [S2 [Hst _]]].
    rewrite S1 in S2. inversion S2; subst v; clear S2.
    rewrite (stopped_ignores_repeated_stop k w1 Hst) in R.
    inversion R; subst. now apply outcome_stop.
Qed.

(** Every notification that returns has one of the outcomes. *)
Lemma deliver_outcome (ev : Event) (w w' : World) :
  deliver ev w = Ok tt w' -> outcome w w'.
Proof.
  destruct ev; cbn [deliver].
  - apply outcome_start.
  - apply outcome_stop.
  - apply outcome_sessionChanged.
  - apply outcome_timerEvent.
  - intros H. apply bind_inv in H. destruct H as [[] [w1 [R D]]].
    apply outcome_repeat_stop in R.
    apply (outcome_then_core w w1 w' R).
    unfold when in D. destruct (connected _ _ _ _).
    + now apply core_kept_destroy in D.
    + inversion D; subst. apply core_kept_refl.
  - intros H. left. now apply (core_kept_relay (Network_messageWritten n)).
  - intros H. left. now apply (core_kept_relay (Network_messageReceived n buffer)).
  - intros H. apply bind_inv in H. destruct H as [[] [w1 [R D]]].
    left. apply core_kept_modify_obj in R.
    apply core_kept_ipcServerStarted in D.
    now apply (core_kept_trans w w1 w').
  - intros H. apply bind_inv in H. destruct H as [c [w1 [R D]]].
    apply bind_inv in D. destruct D as [[] [w2 [N D]]].
    assert (C1 : core_kept w w1)
      by (inversion R; subst; unfold core_kept; cbn; auto).
    apply core_kept_destroy in D.
    apply (core_then_outcome w w1 w' C1).
    apply (outcome_then_core w1 w2 w'); [|exact D].
    apply ipcNewConnection_post in N. right. right. right. left. exact N.
  - intros H. apply bind_inv in H. destruct H as [[] [w1 [R D]]].
    apply outcome_stop in R. apply core_kept_destroy in D.
    now apply (outcome_then_core w w1 w').
  - apply outcome_stop.
  - intros H. apply bind_inv in H. destruct H as [[] [w1 [R D]]].
    apply core_kept_modify_obj in R. apply outcome_dettachSession in D.
    now apply (core_then_outcome w w1 w').
  - apply outcome_dettachSession.
  - intros H. left. now apply (core_kept_relay (Channel_messageReceived c buffer)).
  - intros H. left. now apply (core_kept_relay (Channel_messageWritten c)).
Qed.

Lemma outcome_keeps_timer_forgotten (w w' : World) :
  outcome w w' -> timer_forgotten_at_rest w -> timer_forgotten_at_rest w'.
Proof.
  unfold outcome, core_kept, timer_forgotten_at_rest.
  intros [[H1 [H2 _]]|[[H1 _]|[[H1 _]|[[_ [H2 _]]|[_ [H2 _]]]]]] Hw H;
    try exact H2; try (rewrite H1 in H; destruct H; discriminate).
  rewrite H2. apply Hw. now rewrite <- H1.
Qed.

(** X15. The supervisor remembers a timer only while it awaits an attach
    or a reattach: if [attach_timer_id_] is zero whenever the state is
    stopped or attached, this is still so after any sequence of
    notifications, in any order and whether or not the endpoints could
    have sent them. *)
Theorem timer_remembered_only_while_waiting (evs : list Event) (w w' : World) :
  timer_forgotten_at_rest w ->
  run evs w = Ok tt w' ->
  timer_forgotten_at_rest w'.
Proof.
  revert w. induction evs as [|ev rest IH]; intros w Hw R; cbn [run] in R.
  - inversion R; subst. exact Hw.
  - apply bind_inv in R. destruct R as [[] [w1 [D R]]].
    apply (IH w1); [|exact R].
    apply deliver_outcome in D.
    now apply (outcome_keeps_timer_forgotten w w1).
Qed.

(** X16. [finished] is emitted only by a notification that ends with the
    supervisor stopped: whenever a notification returns in another state,
    it has notified nothing. *)
Theorem finished_only_when_stopped (ev : Event) (w w' : World) :
  deliver ev w = Ok tt w' ->
  state_ (me w') <> StoppedState ->
  finished_count (trace w') = finished_count (trace w).
Proof.
  intros D Hst. apply deliver_outcome in D. unfold outcome, core_kept in D.
  destruct D as [[_ [_ H]]|[[_ H]|[[_ H]|[[_ [_ H]]|[H _]]]]];
    try exact H. contradiction.
Qed.

(** ** No worker is left behind *)

Lemma dettach_active_heap (w w' : World) :
  dettach_active w = Ok tt w' ->
  exists w1, release_session w = Ok tt w1
             /\ heap w' = heap w1
             /\ exists rest, trace w' = trace w1 ++ rest.
Proof.
  destruct (release_session_spec w) as [w1 [R _]].
  unfold dettach_active. step_with R.
  unfold bind at 1, gets at 1. intros D. exists w1. split; [exact R|].
  destruct (is_file_transfer (session_type_ (me w1))).
  - destruct (finish_spec w1) as [v [F [_ [_ [_ [_ [_ [Hhp Htr]]]]]]]].
    rewrite F in D. inversion D; subst v. split; [exact Hhp|]. eauto.
  - destruct (startTimer_spec w1) as [id [w2 [T [_ [_ [Hhp2 [Htr2 _]]]]]]].
    unfold rearm in D. revert D. step_with T.
    unfold bind at 1, modify at 1.
    destruct (id =? 0)%Z.
    + unfold bind at 1, qWarning, log. proj_simpl.
      match goal with
      | |- context [finish ?v] =>
          destruct (finish_spec v) as [w3 [F [_ [_ [_ [_ [_ [Hhp3 Htr3]]]]]]]]
      end.
      rewrite F. intros D. inversion D; subst w3.
      rewrite Hhp3, Htr3. proj_simpl. rewrite Hhp2, Htr2.
      split; [reflexivity|]. rewrite <- !app_assoc. eauto.
    + intros D. inversion D; subst. proj_simpl. rewrite Hhp2, Htr2.
      split; [reflexivity|]. eauto.
Qed.

(** X17. Every teardown releases what the supervisor owns: when [stop] or
    [dettachSession] is called while starting or attached, the worker, if
    there is one, has been killed and its object destroyed, and the IPC
    channel object, if there is one, has been destroyed, whatever the
    session kind and whether or not the timer could be re-armed. *)
Theorem teardown_leaves_no_worker (w w' : World) :
  is_active (state_ (me w)) = true ->
  stop w = Ok tt w' \/ dettachSession w = Ok tt w' ->
  (forall p, session_process_ (me w) = Some p ->
             object_at p w' = None /\ In (ProcessKill p) (trace w'))
  /\ (forall c, ipc_channel_ (me w) = Some c -> object_at c w' = None)
  /\ session_process_ (me w') = None
  /\ ipc_channel_ (me w') = None.
Proof.
  intros Hact H.
  assert (D : exists v, dettach_active w = Ok tt v
                        /\ heap w' = heap v
                        /\ session_process_ (me w') = None
                        /\ ipc_channel_ (me w') = None
                        /\ exists rest, trace w' = trace v ++ rest).
  { destruct H as [H|H].
    - rewrite stop_cases in H.
      replace (match state_ (me w) with
               | StoppedState => Ok tt w
               | DetachedState => finish w
               | _ => stop_active w
               end) with (stop_active w) in H
        by (destruct (state_ (me w)); cbn in Hact; congruence).
      unfold stop_active in H. apply bind_inv in H.
      destruct H as [[] [v [D F]]]. exists v. split; [exact D|].
      destruct (dettach_active_outcome w) as [v' [D' [Hsp [Hic _]]]].
      rewrite D in D'. inversion D'; subst v'; clear D'.
      destruct (finish_spec v) as [v2 [F2 [Hme [_ [_ [_ [_ [Hhp Htr]]]]]]]].
      rewrite F in F2. inversion F2; subst v2; clear F2.
      rewrite Hme, Hhp. proj_simpl. repeat split; try assumption. eauto.
    - rewrite dettachSession_cases in H.
      replace (match state_ (me w) with
               | StoppedState | DetachedState => Ok tt w
               | _ => dettach_active w
               end) with (dettach_active w) in H
        by (destruct (state_ (me w)); cbn in Hact; congruence).
      exists w'. split; [exact H|].
      destruct (dettach_active_outcome w) as [v' [D' [Hsp [Hic _]]]].
      rewrite H in D'. inversion D'; subst v'; clear D'.
      repeat split; try assumption. exists []. now rewrite app_nil_r. }
  destruct D as [v [D [Hhp [Hsp [Hic [rest Htr]]]]]].
  destruct (dettach_active_heap w v D) as [w1 [R [Hhp1 [rest1 Htr1]]]].
  destruct (release_session_objects w w1 R) as [Hp Hc].
  destruct (release_session_spec w) as [w1' [R' [_ [_ [_ [_ [_ [_ [_ [_ [_ Htr0]]]]]]]]]]].
  rewrite R in R'. inversion R'; subst w1'; clear R'.
  unfold object_at in *. rewrite Hhp, Hhp1.
  split; [|split; [exact Hc|split; assumption]].
  intros p Hp0. split; [now apply Hp|].
  rewrite Htr, Htr1, Htr0. unfold kills. rewrite Hp0.
  apply in_or_app. left. apply in_or_app. left. apply in_or_app. right.
  now left.
Qed.

End HostFurther.

(** * The further properties at concrete inputs *)

Section HostFurtherInputs.
Import Host.

Lemma stop_notifies_once_witness :
  let w := detached_example in
  state_ (me w) = DetachedState
  /\ exists w',
      stop w = Ok tt w'
      /\ state_ (me w') = StoppedState
      /\ attach_timer_id_ (me w') = 0
      /\ finished_count (trace w') = S (finished_count (trace w))
      /\ (state_ (me w) <> DetachedState ->
          ~ In (next_timer_id (timers w)) (running (timers w'))).
Proof.
  cbv zeta.
  assert (H : state_ (me detached_example) = DetachedState)
    by (vm_compute; reflexivity).
  split; [exact H|].
  exact (stop_notifies_once detached_example (or_introl H)).
Defined.

Lemma detach_rearms_or_stops_witness :
  let w := attached_example SESSION_TYPE_DESKTOP_MANAGE in
  (is_active (state_ (me w)) = true
   /\ is_file_transfer (session_type_ (me w)) = false
   /\ next_timer_id (timers w) <> 0)
  /\ exists w',
      dettachSession w = Ok tt w'
      /\ session_process_ (me w') = None
      /\ ipc_channel_ (me w') = None
      /\ (forall p, session_process_ (me w) = Some p -> object_at p w' = None)
      /\ (forall c, ipc_channel_ (me w) = Some c -> object_at c w' = None)
      /\ if timer_starts w
         then state_ (me w') = DetachedState
              /\ attach_timer_id_ (me w') = next_timer_id (timers w)
              /\ running (timers w') = next_timer_id (timers w) :: running (timers w)
              /\ finished_count (trace w') = finished_count (trace w)
              /\ startTimer_count (trace w') = S (startTimer_count (trace w))
         else state_ (me w') = StoppedState
              /\ attach_timer_id_ (me w') = 0
              /\ finished_count (trace w') = S (finished_count (trace w)).
Proof.
  cbv zeta.
  assert (H1 : is_active (state_ (me (attached_example SESSION_TYPE_DESKTOP_MANAGE)))
               = true) by (vm_compute; reflexivity).
  assert (H2 : is_file_transfer
                 (session_type_ (me (attached_example SESSION_TYPE_DESKTOP_MANAGE)))
               = false) by (vm_compute; reflexivity).
  assert (H3 : next_timer_id (timers (attached_example SESSION_TYPE_DESKTOP_MANAGE))
               <> 0) by (vm_compute; discriminate).
  split; [split; [exact H1|split; [exact H2|exact H3]]|].
  exact (detach_rearms_or_stops (attached_example SESSION_TYPE_DESKTOP_MANAGE)
           H1 H2 H3).
Defined.

Lemma start_arms_timer_and_attaches_witness :
  let w := new_host SESSION_TYPE_DESKTOP_VIEW debug_build [] in
  (timer_starts w = true /\ next_timer_id (timers w) <> 0)
  /\ exists w',
      start w = Ok tt w'
      /\ state_ (me w') = StartingState
      /\ session_id_ (me w') = active_console_session (platform w)
      /\ attach_timer_id_ (me w') = next_timer_id (timers w)
      /\ running (timers w') = next_timer_id (timers w) :: running (timers w)
      /\ startTimer_count (trace w') = S (startTimer_count (trace w))
      /\ serverStart_count (trace w') = S (serverStart_count (trace w))
      /\ finished_count (trace w') = finished_count (trace w)
      /\ objects (heap w')
         = (next_handle (heap w), OIpcServer false) :: objects (heap w).
Proof.
  cbv zeta.
  assert (H1 : timer_starts (new_host SESSION_TYPE_DESKTOP_VIEW debug_build [])
               = true) by (vm_compute; reflexivity).
  assert (H2 : next_timer_id (timers (new_host SESSION_TYPE_DESKTOP_VIEW debug_build []))
               <> 0) by (vm_compute; discriminate).
  split; [split; [exact H1|exact H2]|].
  exact (start_arms_timer_and_attaches
           (new_host SESSION_TYPE_DESKTOP_VIEW debug_build []) H1 H2).
Defined.

Lemma start_without_timer_stops_witness :
  let w := new_host SESSION_TYPE_DESKTOP_VIEW debug_build [false] in
  timer_starts w = false
  /\ exists w',
      start w = Ok tt w'
      /\ state_ (me w') = StoppedState
      /\ attach_timer_id_ (me w') = 0
      /\ serverStart_count (trace w') = serverStart_count (trace w)
      /\ next_handle (heap w') = next_handle (heap w)
      /\ (finished_count (trace w) < finished_count (trace w')
          <= finished_count (trace w) + 2)%nat.
Proof.
  cbv zeta.
  assert (H1 : timer_starts (new_host SESSION_TYPE_DESKTOP_VIEW debug_build [false])
               = false) by (vm_compute; reflexivity).
  split; [exact H1|].
  exact (start_without_timer_stops
           (new_host SESSION_TYPE_DESKTOP_VIEW debug_build [false]) H1).
Defined.

Lemma completed_attach_witness :
  let w := listening_example in
  let w' := world_of (ipcNewConnection (Some 3%nat) w) w in
  ipcNewConnection (Some 3%nat) w = Ok tt w'
  /\ exists c n,
      Some 3%nat = Some c
      /\ network_channel_ (me w) = Some n
      /\ (qt_no_debug (platform w) = false -> attach_timer_id_ (me w) <> 0)
      /\ state_ (me w') = AttachedState
      /\ ipc_channel_ (me w') = Some c
      /\ attach_timer_id_ (me w') = 0
      /\ session_process_ (me w') = session_process_ (me w)
      /\ ~ In (attach_timer_id_ (me w)) (running (timers w'))
      /\ trace w' = trace w ++ [KillTimer (attach_timer_id_ (me w)); IpcRead c; NetRead n].
Proof.
  cbv zeta.
  assert (H : ipcNewConnection (Some 3%nat) listening_example
              = Ok tt (world_of (ipcNewConnection (Some 3%nat) listening_example)
                                listening_example))
    by (vm_compute; reflexivity).
  split; [exact H|].
  exact (completed_attach (Some 3%nat) listening_example _ H).
Defined.

Lemma listener_started_out_of_turn_aborts_witness :
  let w := attached_example SESSION_TYPE_DESKTOP_MANAGE in
  (qt_no_debug (platform w) = false
   /\ (state_ (me w) <> StartingState \/ session_process_ (me w) <> None))
  /\ exists msg, ipcServerStarted "b" w = Fatal msg w.
Proof.
  cbv zeta.
  assert (H1 : qt_no_debug (platform (attached_example SESSION_TYPE_DESKTOP_MANAGE))
               = false) by (vm_compute; reflexivity).
  assert (H2 : state_ (me (attached_example SESSION_TYPE_DESKTOP_MANAGE))
               <> StartingState) by (vm_compute; discriminate).
  split; [split; [exact H1|left; exact H2]|].
  exact (listener_started_out_of_turn_aborts
           "b" (attached_example SESSION_TYPE_DESKTOP_MANAGE) H1 (or_introl H2)).
Defined.

Lemma second_worker_replaces_first_witness :
  let w := reconnected_while_attached in
  (qt_no_debug (platform w) = true
   /\ session_process_ (me w) = Some 2%nat
   /\ 2%nat <> next_handle (heap w)
   /\ is_known (session_type_ (me w)) = true)
  /\ exists w' config,
      ipcServerStarted "b" w = Ok tt w'
      /\ session_process_ (me w') = Some (next_handle (heap w))
      /\ object_at 2%nat w' = object_at 2%nat w
      /\ state_ (me w') = state_ (me w)
      /\ trace w' = trace w ++ [ProcessStart (next_handle (heap w)) config].
Proof.
  cbv zeta.
  assert (H1 : qt_no_debug (platform reconnected_while_attached) = true)
    by (vm_compute; reflexivity).
  assert (H2 : session_process_ (me reconnected_while_attached) = Some 2%nat)
    by (vm_compute; reflexivity).
  assert (H3 : 2%nat <> next_handle (heap reconnected_while_attached))
    by (vm_compute; discriminate).
  assert (H4 : is_known (session_type_ (me reconnected_while_attached)) = true)
    by (vm_compute; reflexivity).
  split; [split; [exact H1|split; [exact H2|split; [exact H3|exact H4]]]|].
  exact (second_worker_replaces_first "b" reconnected_while_attached 2%nat
           H1 H2 H3 H4).
Defined.

Lemma first_attach_completes_witness :
  let ty := SESSION_TYPE_FILE_TRANSFER in
  let w0 := new_host ty debug_build [true] in
  is_known ty = true
  /\ feasible (attach_events "x") w0 = true
  /\ exists w config account token,
      run (attach_events "x") w0 = Ok tt w
      /\ state_ (me w) = AttachedState
      /\ session_process_ (me w) = Some 2%nat
      /\ ipc_channel_ (me w) = Some 3%nat
      /\ attach_timer_id_ (me w) = 0
      /\ running (timers w) = []
      /\ expected_launch ty = Some (account, token)
      /\ proc_session_id config = Some (active_console_session debug_build)
      /\ proc_account config = Some account
      /\ proc_arguments config
         = ["--channel_id"; "x"; "--session_type"; token]%string
      /\ trace w = [StartTimer 1; ServerStart 1%nat; ProcessStart 2%nat config;
                    KillTimer 1; IpcRead 3%nat; NetRead 0%nat].
Proof.
  cbv zeta. split; [reflexivity|].
  exact (first_attach_completes SESSION_TYPE_FILE_TRANSFER debug_build "x" []
           eq_refl).
Defined.

Lemma timer_remembered_only_while_waiting_witness :
  let w := new_host SESSION_TYPE_DESKTOP_MANAGE debug_build [] in
  let w' := world_of (run reattach_with_pending_write w) w in
  (timer_forgotten_at_rest w /\ run reattach_with_pending_write w = Ok tt w')
  /\ timer_forgotten_at_rest w'.
Proof.
  cbv zeta.
  assert (H1 : timer_forgotten_at_rest
                 (new_host SESSION_TYPE_DESKTOP_MANAGE debug_build []))
    by (intros _; vm_compute; reflexivity).
  assert (H2 : run reattach_with_pending_write
                   (new_host SESSION_TYPE_DESKTOP_MANAGE debug_build [])
               = Ok tt (world_of
                          (run reattach_with_pending_write
                               (new_host SESSION_TYPE_DESKTOP_MANAGE debug_build []))
                          (new_host SESSION_TYPE_DESKTOP_MANAGE debug_build [])))
    by (vm_compute; reflexivity).
  split; [split; [exact H1|exact H2]|].
  exact (timer_remembered_only_while_waiting reattach_with_pending_write _ _ H1 H2).
Defined.

Lemma finished_only_when_stopped_witness :
  let w := attached_example SESSION_TYPE_DESKTOP_MANAGE in
  let ev := Call_sessionChanged WTS_CONSOLE_DISCONNECT 1 in
  let w' := world_of (deliver ev w) w in
  (deliver ev w = Ok tt w' /\ state_ (me w') <> StoppedState)
  /\ finished_count (trace w') = finished_count (trace w).
Proof.
  cbv zeta.
  assert (H1 : deliver (Call_sessionChanged WTS_CONSOLE_DISCONNECT 1)
                       (attached_example SESSION_TYPE_DESKTOP_MANAGE)
               = Ok tt (world_of
                          (deliver (Call_sessionChanged WTS_CONSOLE_DISCONNECT 1)
                                   (attached_example SESSION_TYPE_DESKTOP_MANAGE))
                          (attached_example SESSION_TYPE_DESKTOP_MANAGE)))
    by (vm_compute; reflexivity).
  assert (H2 : state_ (me (world_of
                          (deliver (Call_sessionChanged WTS_CONSOLE_DISCONNECT 1)
                                   (attached_example SESSION_TYPE_DESKTOP_MANAGE))
                          (attached_example SESSION_TYPE_DESKTOP_MANAGE)))
               <> StoppedState) by (vm_compute; discriminate).
  split; [split; [exact H1|exact H2]|].
  exact (finished_only_when_stopped _ _ _ H1 H2).
Defined.

Lemma teardown_leaves_no_worker_witness :
  let w := attached_example SESSION_TYPE_FILE_TRANSFER in
  let w' := world_of (stop w) w in
  (is_active (state_ (me w)) = true /\ stop w = Ok tt w')
  /\ (forall p, session_process_ (me w) = Some p ->
                object_at p w' = None /\ In (ProcessKill p) (trace w'))
  /\ (forall c, ipc_channel_ (me w) = Some c -> object_at c w' = None)
  /\ session_process_ (me w') = None
  /\ ipc_channel_ (me w') = None.
Proof.
  cbv zeta.
  assert (H1 : is_active (state_ (me (attached_example SESSION_TYPE_FILE_TRANSFER)))
               = true) by (vm_compute; reflexivity).
  assert (H2 : stop (attached_example SESSION_TYPE_FILE_TRANSFER)
               = Ok tt (world_of (stop (attached_example SESSION_TYPE_FILE_TRANSFER))
                                 (attached_example SESSION_TYPE_FILE_TRANSFER)))
    by (vm_compute; reflexivity).
  split; [split; [exact H1|exact H2]|].
  exact (teardown_leaves_no_worker _ _ H1 (or_introl H2)).
Defined.

End HostFurtherInputs.
